(** * atmospec: the selection and geometry logic of ProcessStarTask

    A shallow embedding of the pure parts of
    [python/lsst/atmospec/processStar.py] and [python/lsst/atmospec/utils.py]:
    the spectral bounding-box calculator, the ellipticity helper, the two
    main-source selectors, the catalogue fall-back of the target locator,
    the target-name check of [run], and [makeGainFlat].

    Conventions.
    - Python [int] is [Z]; [//] by a positive literal is [Z.div] (both floor).
    - Python [float] is read in the reals [R]: comparisons are exact, rounding
      is not modelled, and a division by zero raises [ZeroDivisionError].
    - A call that may raise returns a [result]; [Raise e] is the exception
      leaving the function.
    - A Python [dict] keyed by strings is a [gmap]; a [dict] keyed by floats,
      whose insertion order and overwrites matter, is an association list. *)

From Stdlib Require Import ZArith Reals Lra Lia List String Bool Sorted.
From stdpp Require Import base gmap sets strings pretty.
Import ListNotations.

(** ** Exceptions and results *)

(** The exceptions that the modelled functions raise or catch.  [ValueError]
    carries its [args] tuple because a handler reads [inst.args[0]]. *)
Inductive PyExc : Type :=
| AssertionError
| ZeroDivisionError
| IndexError
| KeyError
| TypeError
| LengthError
| ValueError (args : list string)
| OtherError (name : string).

Inductive result (A : Type) : Type :=
| Ok (a : A)
| Raise (e : PyExc).

Arguments Ok {A} a.
Arguments Raise {A} e.

(** Sequencing: the first exception raised leaves the function.  The
    instances give [result] stdpp's monadic notation [x ← r; k]. *)
#[global] Instance result_ret : MRet result := fun A a => Ok a.

#[global] Instance result_bind : MBind result := fun A B k r =>
  match r with
  | Ok a => k a
  | Raise e => Raise e
  end.

Definition raises {A : Type} (r : result A) : Prop :=
  exists e, r = Raise e.

(** ** The spectral bounding-box calculator *)

Module BBox.

Local Open Scope Z_scope.

(** The two configuration fields that [calcSpectrumBBox] reads. *)
Record ProcessStarTaskConfig : Type := {
  spectrumLengthPixels : Z;
  offsetFromMainStar : Z
}.

(** What [calcSpectrumBBox] asks of the exposure. *)
Record Exposure : Type := {
  getWidth : Z;
  getHeight : Z
}.

(** [Box2I(Point2I(xStart, yStart), Point2I(xEnd, yEnd))]: both corners
    are inside the box. *)
Record Box2I : Type := {
  getMinX : Z;
  getMinY : Z;
  getMaxX : Z;
  getMaxY : Z
}.

(** The box before clipping, as the four locals of lines 792-804. *)
Record RawBox : Type := {
  xStart : Z;
  xEnd : Z;
  yStart : Z;
  yEnd : Z
}.

Definition rawSpectrumBBox (config : ProcessStarTaskConfig)
    (centroid : Z * Z) (aperture : Z) (order : string) : RawBox :=
  let extent := spectrumLengthPixels config in
  let halfWidth := aperture / 2 in
  let translate_y := offsetFromMainStar config in
  let sourceX := fst centroid in
  let sourceY := snd centroid in
  let translate_y :=
    if String.eqb order "-1"
    then - extent - offsetFromMainStar config
    else translate_y in
  let xStart := sourceX - halfWidth in
  let xEnd := sourceX + halfWidth - 1 in
  let yStart := sourceY + translate_y in
  let yEnd := yStart + extent - 1 in
  {| xStart := xStart; xEnd := xEnd; yStart := yStart; yEnd := yEnd |}.

(** Lines 806-809: the four [min]/[max] assignments, in source order. *)
Definition clipSpectrumBBox (exp : Exposure) (b : RawBox) : RawBox :=
  let xEnd := Z.min (xEnd b) (getWidth exp - 1) in
  let yEnd := Z.min (yEnd b) (getHeight exp - 1) in
  let yStart := Z.max (yStart b) 0 in
  let xStart := Z.max (xStart b) 0 in
  {| xStart := xStart; xEnd := xEnd; yStart := yStart; yEnd := yEnd |}.

(** Line 810, [assert (xEnd > xStart) and (yEnd > yStart)]. *)
Definition boxIsProper (b : RawBox) : bool :=
  (xStart b <? xEnd b) && (yStart b <? yEnd b).

Definition toBox2I (b : RawBox) : Box2I :=
  {| getMinX := xStart b; getMinY := yStart b;
     getMaxX := xEnd b; getMaxY := yEnd b |}.

Definition calcSpectrumBBox (config : ProcessStarTaskConfig) (exp : Exposure)
    (centroid : Z * Z) (aperture : Z) (order : string) : result Box2I :=
  let b := clipSpectrumBBox exp (rawSpectrumBBox config centroid aperture order) in
  if boxIsProper b then Ok (toBox2I b) else Raise AssertionError.

(** The default configuration: [spectrumLengthPixels = 5000],
    [offsetFromMainStar = 100]. *)
Definition defaultConfig : ProcessStarTaskConfig :=
  {| spectrumLengthPixels := 5000; offsetFromMainStar := 100 |}.

End BBox.

(** ** Python lists and float-keyed dictionaries *)

Module Py.

(** [l[i]] for a list: a negative index counts from the end, and an index
    outside the list raises [IndexError]. *)
Definition list_getitem {A : Type} (l : list A) (i : Z) : result A :=
  let n := Z.of_nat (List.length l) in
  let j := if (i <? 0)%Z then (i + n)%Z else i in
  if ((0 <=? j) && (j <? n))%Z
  then match nth_error l (Z.to_nat j) with
       | Some x => Ok x
       | None => Raise IndexError
       end
  else Raise IndexError.

(** A [dict] whose keys are floats, in insertion order. *)
Definition dict (V : Type) : Type := list (R * V).

(** [d[k] = v]: an existing key keeps its place and takes the new value;
    a new key goes to the end. *)
Fixpoint dict_setitem {V : Type} (k : R) (v : V) (d : dict V) : dict V :=
  match d with
  | [] => [(k, v)]
  | (k', v') :: d' =>
      if Req_dec_T k' k then (k', v) :: d'
      else (k', v') :: dict_setitem k v d'
  end.

(** [d[k]]: [KeyError] when the key is absent. *)
Fixpoint dict_getitem {V : Type} (d : dict V) (k : R) : result V :=
  match d with
  | [] => Raise KeyError
  | (k', v') :: d' => if Req_dec_T k' k then Ok v' else dict_getitem d' k
  end.

Definition dict_keys {V : Type} (d : dict V) : list R := List.map fst d.

(** [sorted(l)] on floats, ascending. *)
Fixpoint insort (x : R) (l : list R) : list R :=
  match l with
  | [] => [x]
  | y :: l' => if Rle_dec x y then x :: l else y :: insort x l'
  end.

Definition sorted (l : list R) : list R := List.fold_right insort [] l.

(** [a.sum()] of a float array. *)
Definition array_sum (l : list R) : R := List.fold_right Rplus 0%R l.

(** [a < b] on floats, as a boolean. *)
Definition Rltb (a b : R) : bool := if Rlt_dec a b then true else false.

(** [a / b] on floats. *)
Definition float_div (a b : R) : result R :=
  if Req_dec_T b 0%R then Raise ZeroDivisionError else Ok (a / b)%R.

(** [x ** 0.5] on a float [x >= 0]: [0.0 ** 0.5] is [0.0], and a positive
    base goes through the real power.  (A negative base leaves the floats in
    Python; the only caller passes a sum of two squares.) *)
Definition float_pow_half (x : R) : R :=
  if Req_dec_T x 0%R then 0%R else Rpower x (1 / 2)%R.

End Py.

(** ** Ellipticity and the main-source selectors *)

Module Selector.

Import Py.
Local Open Scope R_scope.

(** [lsst.afw.geom.ellipses.Quadrupole]: the second moments of a region. *)
Record Quadrupole : Type := {
  getIxx : R;
  getIyy : R;
  getIxy : R
}.

Definition _getEllipticity (shape : Quadrupole) : result R :=
  let ixx := getIxx shape in
  let iyy := getIyy shape in
  let ixy := getIxy shape in
  ePlus ← float_div (ixx - iyy) (ixx + iyy);
  eCross ← float_div (2 * ixy) (ixx + iyy);
  Ok (float_pow_half (ePlus ^ 2 + eCross ^ 2)).

(** What the selectors ask of the detection framework: a footprint has a
    shape, and its spans pick the pixels of the parent image that it covers
    ([fp.getSpans().flatten(parentExp.image.array, parentExp.image.getXY0())]). *)
Class Detection : Type := {
  Footprint : Type;
  Exposure : Type;
  getShape : Footprint -> Quadrupole;
  flatten : Footprint -> Exposure -> list R
}.

Section Loops.
Context `{Detection}.

Definition footprintFlux (fp : Footprint) (parentExp : Exposure) : R :=
  array_sum (flatten fp parentExp).

(** The [for] loop of [getRoundestObject], threading [sourceDict]. *)
Fixpoint roundestLoop (footprints : list Footprint) (parentExp : Exposure)
    (fluxCut : R) (sourceDict : dict Footprint) : result (dict Footprint) :=
  match footprints with
  | [] => Ok sourceDict
  | fp :: rest =>
      let shape := getShape fp in
      e ← _getEllipticity shape;
      let flux := footprintFlux fp parentExp in
      roundestLoop rest parentExp fluxCut
        (if Rlt_dec fluxCut flux then dict_setitem e fp sourceDict
         else sourceDict)
  end.

Definition getRoundestObject (footPrintSet : list Footprint)
    (parentExp : Exposure) (fluxCut : R) : result Footprint :=
  sourceDict ← roundestLoop footPrintSet parentExp fluxCut [];
  k ← list_getitem (sorted (dict_keys sourceDict)) 0;
  dict_getitem sourceDict k.

(** The [for] loop of [getBrightestObject]. *)
Fixpoint brightestLoop (footprints : list Footprint) (parentExp : Exposure)
    (roundnessCut : R) (sourceDict : dict Footprint) : result (dict Footprint) :=
  match footprints with
  | [] => Ok sourceDict
  | fp :: rest =>
      let shape := getShape fp in
      e ← _getEllipticity shape;
      let flux := footprintFlux fp parentExp in
      brightestLoop rest parentExp roundnessCut
        (if Rlt_dec e roundnessCut then dict_setitem flux fp sourceDict
         else sourceDict)
  end.

Definition getBrightestObject (footPrintSet : list Footprint)
    (parentExp : Exposure) (roundnessCut : R) : result Footprint :=
  sourceDict ← brightestLoop footPrintSet parentExp roundnessCut [];
  k ← list_getitem (sorted (dict_keys sourceDict)) (-1);
  dict_getitem sourceDict k.

End Loops.

(** The ellipticity in the words of the specification:
    [sqrt(ePlus² + eCross²)], [ePlus = (Ixx-Iyy)/(Ixx+Iyy)],
    [eCross = 2·Ixy/(Ixx+Iyy)]. *)
Definition ePlus (shape : Quadrupole) : R :=
  (getIxx shape - getIyy shape) / (getIxx shape + getIyy shape).

Definition eCross (shape : Quadrupole) : R :=
  2 * getIxy shape / (getIxx shape + getIyy shape).

Definition specEllipticity (shape : Quadrupole) : R :=
  sqrt ((ePlus shape)² + (eCross shape)²).

(** A shape whose ellipticity is defined. *)
Definition hasEllipticity (shape : Quadrupole) : Prop :=
  getIxx shape + getIyy shape <> 0.

Section Survivors.
Context `{Detection}.

Definition ellipticityOf (fp : Footprint) : R :=
  specEllipticity (getShape fp).

(** The survivors of Roundest-mode: flux strictly above the cutoff. *)
Definition brighterThan (fluxCut : R) (parentExp : Exposure)
    (footprints : list Footprint) : list Footprint :=
  List.filter (fun fp => Rltb fluxCut (footprintFlux fp parentExp)) footprints.

(** The survivors of Brightest-mode: ellipticity strictly below the cutoff. *)
Definition rounderThan (roundnessCut : R) (footprints : list Footprint)
    : list Footprint :=
  List.filter (fun fp => Rltb (ellipticityOf fp) roundnessCut) footprints.

(** Both loops are one loop: keep a footprint on a test of its ellipticity
    and flux, and file it under a key made of them. *)
Fixpoint selectLoop (keep : R -> R -> bool) (key : R -> R -> R)
    (footprints : list Footprint) (parentExp : Exposure)
    (sourceDict : dict Footprint) : result (dict Footprint) :=
  match footprints with
  | [] => Ok sourceDict
  | fp :: rest =>
      e ← _getEllipticity (getShape fp);
      let flux := footprintFlux fp parentExp in
      selectLoop keep key rest parentExp
        (if keep e flux then dict_setitem (key e flux) fp sourceDict
         else sourceDict)
  end.

End Survivors.

(** A detection small enough to write down: a footprint is its shape and
    the pixel values under its spans. *)
Definition listDetection : Detection := {|
  Footprint := Quadrupole * list R;
  Exposure := unit;
  getShape := fst;
  flatten := fun fp _ => snd fp
|}.

(** A round bright star, an elongated brighter streak, a faint round blob
    and a single faint pixel (all second moments zero). *)
Definition roundStar : @Footprint listDetection :=
  ({| getIxx := 1; getIyy := 1; getIxy := 0 |}, [10]).

Definition streak : @Footprint listDetection :=
  ({| getIxx := 3; getIyy := 1; getIxy := 0 |}, [20]).

Definition faintBlob : @Footprint listDetection :=
  ({| getIxx := 2; getIyy := 2; getIxy := 0 |}, [1]).

Definition singlePixel : @Footprint listDetection :=
  ({| getIxx := 0; getIyy := 0; getIxy := 0 |}, [0]).

End Selector.

(** ** Calls to the outside world *)

Module Effects.

(** What the modelled functions do to the outside world, in order: the two
    catalogue queries, the logger, and the hand-over to the extraction. *)
Inductive Event : Type :=
| VizierQuery (target : string)
| SimbadQuery (target : string)
| LogInfo (msg : string)
| LogWarn (msg : string)
| SpectractorRun (target : string).

(** A computation: the events it caused, and how it ended.  Events caused
    before an exception stay in the trace. *)
Record IO (A : Type) : Type := mkIO {
  trace : list Event;
  outcome : result A
}.

Arguments mkIO {A} trace outcome.
Arguments trace {A} _.
Arguments outcome {A} _.

#[global] Instance IO_ret : MRet IO := fun A a => mkIO [] (Ok a).

#[global] Instance IO_bind : MBind IO := fun A B k m =>
  match outcome m with
  | Ok a => mkIO (trace m ++ trace (k a)) (outcome (k a))
  | Raise e => mkIO (trace m) (Raise e)
  end.

Definition emit (ev : Event) : IO unit := mkIO [ev] (Ok tt).

(** An external call whose outcome is known: no event of its own. *)
Definition lift {A : Type} (r : result A) : IO A := mkIO [] r.

Definition isValueError (e : PyExc) : bool :=
  match e with
  | ValueError _ => true
  | _ => false
  end.

Definition isTypeError (e : PyExc) : bool :=
  match e with
  | TypeError => true
  | _ => false
  end.

(** [try: body  except E as inst: handler(inst)], where [catches] says
    whether an exception is an instance of [E]. *)
Definition try_except {A : Type} (body : IO A) (catches : PyExc -> bool)
    (handler : PyExc -> IO A) : IO A :=
  match outcome body with
  | Ok a => body
  | Raise e =>
      if catches e
      then mkIO (trace body ++ trace (handler e)) (outcome (handler e))
      else body
  end.

Definition exc_args (e : PyExc) : list string :=
  match e with
  | ValueError args => args
  | _ => []
  end.

End Effects.

(** ** The target locator *)

Module Locator.

Import Py Effects.
Local Open Scope string_scope.

(** The catalogue services and the astropy/afw conversions, as the locator
    sees them.  Each may raise.
    - [Vizier_query_object target] is [Vizier.query_object(target)];
      [TableList_getitem result name] is [result[name]], which raises
      [TypeError] when the catalogue is not in the reply.
    - [hipparcosCoord star] builds the [SkyCoord] at epoch J1991.25;
      [apply_space_motion coord exp] moves it to the exposure's date.
    - [Simbad_query_object target] is [None] or a table of rows.
    - [skyToPixel exp loc] is [exp.getWcs().skyToPixel(loc)]. *)
Class Services : Type := {
  Exposure : Type;
  TableList : Type;
  HipTable : Type;
  SimbadRow : Type;
  SkyCoord : Type;
  SpherePoint : Type;
  Point2D : Type;
  Vizier_query_object : string -> result TableList;
  TableList_getitem : TableList -> string -> result HipTable;
  hipparcosCoord : HipTable -> result SkyCoord;
  apply_space_motion : SkyCoord -> Exposure -> result SkyCoord;
  toSpherePoint : SkyCoord -> SpherePoint;
  Simbad_query_object : string -> result (option (list SimbadRow));
  simbadCoord : SimbadRow -> result SkyCoord;
  skyToPixel : Exposure -> SpherePoint -> result Point2D
}.

(** [str(len(obj))] for the message of the second [ValueError]; only its
    presence matters to the caller. *)
Definition str_of_len {A : Type} (l : list A) : string :=
  pretty (N.of_nat (List.length l)).

Section Locate.
Context `{Services}.

Definition vizierLocationForTarget (exp : Exposure) (target : string)
    (doMotionCorrection : bool) : IO SpherePoint :=
  emit (VizierQuery target);;
  result ← lift (Vizier_query_object target);
  star ← try_except (lift (TableList_getitem result "I/311/hip2"))
           isTypeError (fun _ => lift (Raise (ValueError [])));
  coord ← lift (hipparcosCoord star);
  newCoord ← (if doMotionCorrection
               then lift (apply_space_motion coord exp)
               else mret coord);
  mret (toSpherePoint newCoord).

Definition simbadLocationForTarget (target : string) : IO SpherePoint :=
  emit (SimbadQuery target);;
  obj ← lift (Simbad_query_object target);
  match obj with
  | None | Some [] =>
      lift (Raise (ValueError ["Found failed to find " ++ target ++ " in simbad!"]))
  | Some [row] =>
      skyLocation ← lift (simbadCoord row);
      mret (toSpherePoint skyLocation)
  | Some rows =>
      lift (Raise (ValueError
        ["Found " ++ str_of_len rows ++ " simbad entries for " ++ target ++ "!"]))
  end.

(** The two nested [try] blocks of [getTargetCentroidFromWcs] (lines 89-104).
    [None] is the handler's [return None]; otherwise the pair is
    [(targetLocation, resultFrom)]. *)
Definition lookupTarget (exp : Exposure) (target : string)
    (doMotionCorrection : bool) : IO (option (SpherePoint * string)) :=
  try_except
    (targetLocation ← vizierLocationForTarget exp target doMotionCorrection;
     emit (LogInfo ("Target location for " ++ target ++ " retrieved from Vizier"));;
     mret (Some (targetLocation, "vizier")))
    isValueError
    (fun _ =>
       try_except
         (emit (LogWarn ("Target " ++ target
                           ++ " not found in Vizier, failing over to try Simbad"));;
          targetLocation ← simbadLocationForTarget target;
          emit (LogInfo ("Target location for " ++ target ++ " retrieved from Simbad"));;
          mret (Some (targetLocation, "simbad")))
         isValueError
         (fun inst =>
            msg ← lift (list_getitem (exc_args inst) 0);
            emit (LogWarn msg);;
            mret None)).

(** [getTargetCentroidFromWcs]: [None] is "not found".  A [SpherePoint] is
    always true in [if not targetLocation], so that test never returns. *)
Definition getTargetCentroidFromWcs (exp : Exposure) (target : string)
    (doMotionCorrection : bool) : IO (option Point2D) :=
  found ← lookupTarget exp target doMotionCorrection;
  match found with
  | None => mret None
  | Some (targetLocation, resultFrom) =>
      (if doMotionCorrection && String.eqb resultFrom "simbad"
       then emit (LogWarn ("Failed to apply motion correction because " ++ target
                             ++ " was only found in Simbad, not Vizier/Hipparcos"))
       else mret tt);;
      pixCoord ← lift (skyToPixel exp targetLocation);
      mret (Some pixCoord)
  end.

End Locate.

(** Catalogues that know no star: Vizier's reply lacks the Hipparcos table
    and Simbad returns [None]. *)
Definition emptyCatalogues : Services := {|
  Exposure := unit;
  TableList := unit;
  HipTable := unit;
  SimbadRow := unit;
  SkyCoord := unit;
  SpherePoint := unit;
  Point2D := Z * Z;
  Vizier_query_object := fun _ => Ok tt;
  TableList_getitem := fun _ _ => Raise TypeError;
  hipparcosCoord := fun _ => Ok tt;
  apply_space_motion := fun coord _ => Ok coord;
  toSpherePoint := fun coord => coord;
  Simbad_query_object := fun _ => Ok None;
  simbadCoord := fun _ => Ok tt;
  skyToPixel := fun _ _ => Ok (0%Z, 0%Z)
|}.

End Locator.

(** ** The target-name check of [run] *)

Module Run.

Import Effects.
Local Open Scope string_scope.

(** The names that line 756 refuses. *)
Definition notCelestial : list string :=
  ["FlatField position"; "Park position"; "Test"; "NOTSET"].

(** [exp.getMetadata()['OBJECT']]: a missing key raises [KeyError]. *)
Definition metadata_getitem (md : gmap string string) (key : string) : result string :=
  match md !! key with
  | Some v => Ok v
  | None => Raise KeyError
  end.

(** Lines 751-754: the name read from the header, replaced by
    [config.forceObjectName] when that is a non-empty string. *)
Definition resolveTarget (md : gmap string string) (forceObjectName : string)
    : IO string :=
  target ← lift (metadata_getitem md "OBJECT");
  if negb (String.eqb forceObjectName "")
  then
    emit (LogWarn ("Forcing target name from " ++ target ++ " to " ++ forceObjectName));;
    mret forceObjectName
  else mret target.

(** Lines 751-761 of [run], after the plotting file and the
    [SpectractorShim] have been set up (lines 721-749 do not look at the
    target).  [spectractor_run target] is how [spectractor.run(...)] ends. *)
Definition run (md : gmap string string) (forceObjectName : string)
    (spectractor_run : string -> result unit) : IO unit :=
  target ← resolveTarget md forceObjectName;
  if bool_decide (target ∈ notCelestial)
  then lift (Raise (ValueError
         ["OBJECT set to " ++ target ++ " - this is not a celestial object!"]))
  else
    emit (SpectractorRun target);;
    lift (spectractor_run target).

(** Whether the extraction was entered. *)
Definition isSpectractorRun (ev : Event) : bool :=
  match ev with
  | SpectractorRun _ => true
  | _ => false
  end.

End Run.

(** ** [makeGainFlat] *)

Module GainFlat.

Import BBox.
Local Open Scope Z_scope.

(** A pixel position in parent coordinates. *)
Definition Pixel : Type := (Z * Z)%type.

Definition boxContainsPixel (b : Box2I) (p : Pixel) : bool :=
  (getMinX b <=? fst p) && (fst p <=? getMaxX b)
  && (getMinY b <=? snd p) && (snd p <=? getMaxY b).

Definition boxIsEmpty (b : Box2I) : bool :=
  (getMaxX b <? getMinX b) || (getMaxY b <? getMinY b).

(** [Box2I.contains(other)]: an empty box is inside every box. *)
Definition boxContainsBox (outer inner : Box2I) : bool :=
  boxIsEmpty inner
  || ((getMinX outer <=? getMinX inner) && (getMinY outer <=? getMinY inner)
      && (getMaxX inner <=? getMaxX outer) && (getMaxY inner <=? getMaxY outer)).

Record Amplifier : Type := {
  getName : string;
  getBBox : Box2I
}.

(** An exposure: its bounding box, the three planes of its masked image
    indexed by parent pixel position, and the amplifiers of its detector in
    iteration order. *)
Record Exposure : Type := {
  getExposureBBox : Box2I;
  image : Pixel -> R;
  mask : Pixel -> Z;
  variance : Pixel -> R;
  getDetector : list Amplifier
}.

(** [flat[bbox].maskedImage.image.array[:, :] = value]: [flat[bbox]] is a view
    on the pixels of [flat], and raises [LengthError] when [bbox] does not
    fit in [flat]. *)
Definition setImageInBox (flat : Exposure) (bbox : Box2I) (value : R)
    : result Exposure :=
  if boxContainsBox (getExposureBBox flat) bbox
  then Ok {| getExposureBBox := getExposureBBox flat;
             image := fun p => if boxContainsPixel bbox p then value else image flat p;
             mask := mask flat;
             variance := variance flat;
             getDetector := getDetector flat |}
  else Raise LengthError.

(** [gainDict[name]]. *)
Definition gainDict_getitem (gainDict : gmap string R) (name : string) : result R :=
  match gainDict !! name with
  | Some g => Ok g
  | None => Raise KeyError
  end.

(** The [for amp in detector] loop, threading [flat].  The right-hand side
    of the assignment is evaluated first. *)
Fixpoint gainLoop (amps : list Amplifier) (gainDict : gmap string R)
    (flat : Exposure) : result Exposure :=
  match amps with
  | [] => Ok flat
  | amp :: rest =>
      let bbox := getBBox amp in
      value ← gainDict_getitem gainDict (getName amp);
      flat' ← setImageInBox flat bbox value;
      gainLoop rest gainDict flat'
  end.

Definition makeGainFlat (detectorExposure : Exposure) (gainDict : gmap string R)
    : result Exposure :=
  let detector := getDetector detectorExposure in
  let ampNames : gset string := list_to_set (List.map getName detector) in
  if bool_decide (dom gainDict = ampNames)
  then
    (* flat = copy.copy(detectorExposure) *)
    let flat := detectorExposure in
    flat ← gainLoop detector gainDict flat;
    Ok {| getExposureBBox := getExposureBBox flat;
          image := image flat;
          mask := fun _ => 0;
          variance := fun _ => 0%R;
          getDetector := getDetector flat |}
  else Raise AssertionError.

(** A two-pixel exposure, pixels (0,0) and (1,0), with some detector. *)
Definition twoPixelExposure (detector : list Amplifier) : Exposure := {|
  getExposureBBox := {| getMinX := 0; getMinY := 0; getMaxX := 1; getMaxY := 0 |};
  image := fun _ => 7%R;
  mask := fun _ => 5;
  variance := fun _ => 3%R;
  getDetector := detector
|}.

(** Amplifier A on the left pixel, on both pixels, and amplifier B on the
    right pixel. *)
Definition ampLeft : Amplifier :=
  {| getName := "A";
     getBBox := {| getMinX := 0; getMinY := 0; getMaxX := 0; getMaxY := 0 |} |}.

Definition ampWide : Amplifier :=
  {| getName := "A";
     getBBox := {| getMinX := 0; getMinY := 0; getMaxX := 1; getMaxY := 0 |} |}.

Definition ampRight : Amplifier :=
  {| getName := "B";
     getBBox := {| getMinX := 1; getMinY := 0; getMaxX := 1; getMaxY := 0 |} |}.

Definition twoGains : gmap string R := {[ "A" := 1%R; "B" := 2%R ]}.

End GainFlat.

(** ** Detection and the choice of the main source *)

Module Detect.

Import Py Selector.

(** The configuration fields read by [findObjects] and [findMainSource]. *)
Record Config : Type := {
  mainSourceFindingMethod : string;
  mainStarRoundnessCut : R;
  mainStarFluxCut : R;
  mainStarNpixMin : Z;
  mainStarNsigma : Z;
  mainStarGrow : Z;
  mainStarGrowIsotropic : bool
}.

(** The detection framework behind [findObjects]:
    - [detectFootprints exp nSigma nPixMin] is
      [FootprintSet(exp.getMaskedImage(), Threshold(nSigma, STDEV), "DETECTED", nPixMin)];
    - [growFootprints fps grow isotropic] is [FootprintSet(fps, grow, isotropic)].
    A footprint set is the list of its footprints. *)
Class Framework : Type := {
  detection :: Detection;
  Point2D : Type;
  getCentroid : Footprint -> Point2D;
  detectFootprints : Exposure -> Z -> Z -> result (list Footprint);
  growFootprints : list Footprint -> Z -> bool -> result (list Footprint)
}.

Section Find.
Context `{Framework}.

(** [findObjects(exp, nSigma=None, grow=0)].  [isotropic] is assigned only
    in the branch that replaces [grow]; reading it unassigned raises
    [UnboundLocalError]. *)
Definition findObjects (config : Config) (exp : Exposure)
    (nSigma : option Z) (grow : Z) : result (list Footprint) :=
  let nPixMin := mainStarNpixMin config in
  let nSigma :=
    match nSigma with
    | Some n => if (n =? 0)%Z then mainStarNsigma config else n
    | None => mainStarNsigma config
    end in
  let '(grow, isotropic) :=
    if (grow =? 0)%Z
    then (mainStarGrow config, Some (mainStarGrowIsotropic config))
    else (grow, None) in
  footPrintSet ← detectFootprints exp nSigma nPixMin;
  if (0 <? grow)%Z
  then match isotropic with
       | Some isotropic => growFootprints footPrintSet grow isotropic
       | None => Raise (OtherError "UnboundLocalError")
       end
  else Ok footPrintSet.

Definition findMainSource (config : Config) (exp : Exposure) : result Point2D :=
  fpSet ← findObjects config exp None 0;
  source ←
    (if String.eqb (mainSourceFindingMethod config) "ROUNDEST"
     then getRoundestObject fpSet exp (mainStarFluxCut config)
     else if String.eqb (mainSourceFindingMethod config) "BRIGHTEST"
     then getBrightestObject fpSet exp (mainStarRoundnessCut config)
     else Raise (OtherError "RuntimeError"));
  Ok (getCentroid source).

End Find.

(** What either selection loop leaves in the dictionary when it files the
    footprints of [kept], in order, each under [keyOf]. *)
Definition filed {V : Type} (keyOf : V -> R) (kept : list V)
    (sourceDict : dict V) : dict V :=
  List.fold_left (fun d fp => dict_setitem (keyOf fp) fp d) kept sourceDict.

(** The footprints of [listDetection], with a centroid in their first
    pixel value and a detection that finds what it is told to. *)
Definition listFramework (found : list (@Footprint listDetection)) : Framework := {|
  detection := listDetection;
  Point2D := R;
  getCentroid := fun fp => List.hd 0%R (snd fp);
  detectFootprints := fun _ _ _ => Ok found;
  growFootprints := fun fps _ _ => Ok fps
|}.

Definition exampleConfig (method : string) : Config := {|
  mainSourceFindingMethod := method;
  mainStarRoundnessCut := 1;
  mainStarFluxCut := 5;
  mainStarNpixMin := 10;
  mainStarNsigma := 200;
  mainStarGrow := 5;
  mainStarGrowIsotropic := false
|}.

End Detect.

(** ** [updateMetadata] and the header it writes *)

Module Metadata.

Import Py.
Local Open Scope string_scope.

(** The header values that the task writes and reads. *)
Inductive PyVal : Type :=
| PyNone
| PyFloat (x : R)
| PyStr (s : string).

(** A [PropertyList]: values and comments by name. *)
Record PropertyList : Type := {
  values : gmap string PyVal;
  comments : gmap string string
}.

(** [md[name] = value]. *)
Definition md_setitem (name : string) (value : PyVal) (md : PropertyList)
    : PropertyList :=
  {| values := <[name := value]> (values md); comments := comments md |}.

(** [md.setComment(name, comment)]. *)
Definition md_setComment (name comment : string) (md : PropertyList)
    : PropertyList :=
  {| values := values md; comments := <[name := comment]> (comments md) |}.

(** [md[name]]. *)
Definition md_getitem (md : PropertyList) (name : string) : result PyVal :=
  match values md !! name with
  | Some v => Ok v
  | None => Raise KeyError
  end.

(** What [updateMetadata] reads of the visit:
    [vi.getBoresightHourAngle().asDegrees()] and [vi.getBoresightAirmass()]. *)
Record VisitInfo : Type := {
  getBoresightHourAngleDegrees : R;
  getBoresightAirmass : R
}.

(** A value passed as [centroid]: [None], or something indexable (a tuple,
    a [Point2D]). *)
Inductive PyObj : Type :=
| ObjNone
| ObjSeq (items : list PyVal).

(** [obj[i]]: [None] is not subscriptable. *)
Definition obj_getitem (obj : PyObj) (i : Z) : result PyVal :=
  match obj with
  | ObjNone => Raise TypeError
  | ObjSeq items => list_getitem items i
  end.

(** [updateMetadata(exp, **kwargs)]: [kwargs_centroid] is [None] when the
    call has no [centroid] keyword.  The result is the header of the exposure
    once the call has returned. *)
Definition updateMetadata (md : PropertyList) (vi : VisitInfo)
    (kwargs_centroid : option PyObj) : result PropertyList :=
  let ha := getBoresightHourAngleDegrees vi in
  let airmass := getBoresightAirmass vi in
  let md := md_setitem "HA" (PyFloat ha) md in
  let md := md_setComment "HA" "Hour angle of observation start" md in
  let md := md_setitem "AIRMASS" (PyFloat airmass) md in
  let md := md_setComment "AIRMASS" "Airmass at observation start" md in
  let centroid :=
    match kwargs_centroid with
    | Some centroid => centroid
    | None => ObjSeq [PyNone; PyNone]
    end in
  x ← obj_getitem centroid 0;
  let md := md_setitem "OBJECTX" x md in
  let md := md_setComment "OBJECTX" "x pixel coordinate of object centroid" md in
  y ← obj_getitem centroid 1;
  let md := md_setitem "OBJECTY" y md in
  let md := md_setComment "OBJECTY" "y pixel coordinate of object centroid" md in
  Ok md.

(** Line 598 of [runDataRef]: [(md['OBJECTX'], md['OBJECTY'])]. *)
Definition savedCentroid (md : PropertyList) : result (PyVal * PyVal) :=
  x ← md_getitem md "OBJECTX";
  y ← md_getitem md "OBJECTY";
  Ok (x, y).

(** The names that [updateMetadata] writes. *)
Definition writtenNames : list string := ["HA"; "AIRMASS"; "OBJECTX"; "OBJECTY"].

End Metadata.

(** ** [runAstrometry] and the centroid step of [runDataRef] *)

Module DataRef.

Import Py Effects Locator Metadata.
Local Open Scope string_scope.

(** What the task reads of an astrometric fit:
    [astromResult.scatterOnSky.asArcseconds()]. *)
Record AstromResult : Type := {
  scatterOnSkyArcseconds : R
}.

(** Lines 654-669 of [runAstrometry], from the exchange of the filter on.
    [solver_run] is how [solver.run(sourceCat=icSrc, exposure=exp)] ends.
    The result is the filter the exposure is left with, the warnings
    logged, and the value returned. *)
Record AstrometryRun (Filter : Type) : Type := {
  filterAfter : Filter;
  warnings : list Event;
  returned : option AstromResult
}.

Arguments filterAfter {Filter} _.
Arguments warnings {Filter} _.
Arguments returned {Filter} _.

Definition runAstrometry {Filter : Type} (originalFilter referenceFilter : Filter)
    (solver_run : result AstromResult) : AstrometryRun Filter :=
  match solver_run with
  | Raise _ =>
      {| filterAfter := referenceFilter;
         warnings := [LogWarn "Solver failed to run completely"];
         returned := None |}
  | Ok astromResult =>
      let scatter := scatterOnSkyArcseconds astromResult in
      if Rlt_dec scatter 1
      then {| filterAfter := originalFilter; warnings := [];
              returned := Some astromResult |}
      else {| filterAfter := originalFilter;
              warnings := [LogWarn "Failed to find an acceptable match"];
              returned := None |}
  end.

(** How the [else] branch of lines 599-610 ends: what was logged and asked
    of the catalogues, whether the calexp was written, and the centroid. *)
Record CentroidStep : Type := {
  stepTrace : list Event;
  calexpWritten : bool;
  stepOutcome : result (PyObj * PropertyList)
}.

Section Step.
Context `{Services}.

(** [pixCoord] as [updateMetadata] indexes it. *)
Definition centroidObj (xy : Point2D -> R * R) (found : option Point2D) : PyObj :=
  match found with
  | None => ObjNone
  | Some p => ObjSeq [PyFloat (fst (xy p)); PyFloat (snd (xy p))]
  end.

(** Lines 600-610 of [runDataRef], when no calexp is on disk.
    - [solver_run] is how the astrometric solver ends;
    - [headerObject] is how [exposure.getMetadata()['OBJECT']] ends;
    - [findMain] is how [self.findMainSource(exposure)] ends;
    - [xy p] are the two coordinates of a pixel position and [repr p] is
      its [repr];
    - writing the calexp ([butler.put]) is taken to succeed. *)
Definition centroidStep {Filter : Type} (originalFilter referenceFilter : Filter)
    (exposure : Exposure) (md : PropertyList) (vi : VisitInfo)
    (solver_run : result AstromResult) (headerObject : result string)
    (findMain : result Point2D) (xy : Point2D -> R * R)
    (repr : Point2D -> string) : CentroidStep :=
  let astrometry := runAstrometry originalFilter referenceFilter solver_run in
  let fromCatalogue : IO PyObj :=
    target ← lift headerObject;
    found ← getTargetCentroidFromWcs exposure target true;
    mret (centroidObj xy found) in
  let fromDetection : IO PyObj :=
    sourceCentroid ← lift findMain;
    emit (LogWarn "Astrometric fit failed, failing over to source-finding centroid");;
    emit (LogInfo ("Centroid of main star at: " ++ repr sourceCentroid));;
    mret (centroidObj xy (Some sourceCentroid)) in
  let located : IO PyObj :=
    mkIO (warnings astrometry) (Ok tt);;
    match returned astrometry with
    | Some astromResult =>
        if Rlt_dec (scatterOnSkyArcseconds astromResult) 1
        then fromCatalogue
        else fromDetection
    | None => fromDetection
    end in
  match outcome located with
  | Raise e =>
      {| stepTrace := trace located; calexpWritten := false; stepOutcome := Raise e |}
  | Ok sourceCentroid =>
      match updateMetadata md vi (Some sourceCentroid) with
      | Raise e =>
          {| stepTrace := trace located; calexpWritten := false;
             stepOutcome := Raise e |}
      | Ok md' =>
          {| stepTrace := trace located; calexpWritten := true;
             stepOutcome := Ok (sourceCentroid, md') |}
      end
  end.

End Step.

(** The two events that ask a catalogue. *)
Definition isCatalogueQuery (ev : Event) : bool :=
  match ev with
  | VizierQuery _ | SimbadQuery _ => true
  | _ => false
  end.

End DataRef.

(** ** Catalogues for examples *)

Module Catalogues.

Import Locator.

(** Catalogues that answer as told: how the Vizier query ends, how the
    look-up of the Hipparcos table in its reply ends, and how the Simbad
    query ends.  Positions are [unit]; every position projects to the pixel
    (100, 200). *)
Definition stubCatalogues (vizierReply hipparcos : result unit)
    (simbadReply : result (option (list unit))) : Services := {|
  Exposure := unit;
  TableList := unit;
  HipTable := unit;
  SimbadRow := unit;
  SkyCoord := unit;
  SpherePoint := unit;
  Point2D := Z * Z;
  Vizier_query_object := fun _ => vizierReply;
  TableList_getitem := fun _ _ => hipparcos;
  hipparcosCoord := fun _ => Ok tt;
  apply_space_motion := fun coord _ => Ok coord;
  toSpherePoint := fun coord => coord;
  Simbad_query_object := fun _ => simbadReply;
  simbadCoord := fun _ => Ok tt;
  skyToPixel := fun _ _ => Ok (100%Z, 200%Z)
|}.

(** The two coordinates of such a pixel, as floats. *)
Definition pixelCoordinates (p : Z * Z) : R * R := (IZR (fst p), IZR (snd p)).

End Catalogues.

(** * Properties *)

(** ** The spectral bounding-box calculator *)

Module BBoxFacts.

Import BBox.
Local Open Scope Z_scope.

Lemma boxIsProper_iff (b : RawBox) :
  boxIsProper b = true <-> xEnd b > xStart b /\ yEnd b > yStart b.
Proof.
  unfold boxIsProper.
  rewrite andb_true_iff, !Z.ltb_lt.
  lia.
Qed.

Lemma calcSpectrumBBox_proper config exp centroid aperture order :
  let b := clipSpectrumBBox exp (rawSpectrumBBox config centroid aperture order) in
  boxIsProper b = true ->
  calcSpectrumBBox config exp centroid aperture order = Ok (toBox2I b).
Proof.
  intros b Hb. unfold calcSpectrumBBox. fold b. now rewrite Hb.
Qed.

Lemma calcSpectrumBBox_improper config exp centroid aperture order :
  let b := clipSpectrumBBox exp (rawSpectrumBBox config centroid aperture order) in
  boxIsProper b = false ->
  calcSpectrumBBox config exp centroid aperture order = Raise AssertionError.
Proof.
  intros b Hb. unfold calcSpectrumBBox. fold b. now rewrite Hb.
Qed.

(** Any order string other than ["-1"] takes the path of ["+1"]. *)
Lemma rawSpectrumBBox_other_order config centroid aperture order :
  String.eqb order "-1" = false ->
  rawSpectrumBBox config centroid aperture order
  = rawSpectrumBBox config centroid aperture "+1".
Proof.
  intros Ho. unfold rawSpectrumBBox. now rewrite Ho.
Qed.

(** C1, as the code has it: centroid (512, 512), aperture 250, length 5000,
    offset 100, order '+1', image height 4000 and width at least 637 give
    the box xStart=387, xEnd=636, yStart=612, yEnd=3999, where yEnd was
    5611 before clipping to the image height minus one. *)
Theorem calcSpectrumBBox_example (w : Z) (Hw : 637 <= w) :
  calcSpectrumBBox defaultConfig {| getWidth := w; getHeight := 4000 |}
    (512, 512) 250 "+1"
  = Ok {| getMinX := 387; getMinY := 612; getMaxX := 636; getMaxY := 3999 |}
  /\ yEnd (rawSpectrumBBox defaultConfig (512, 512) 250 "+1") = 5611.
Proof.
  split; [| reflexivity].
  rewrite calcSpectrumBBox_proper.
  - unfold toBox2I, clipSpectrumBBox; cbn.
    change (250 / 2) with 125.
    f_equal. f_equal; lia.
  - apply boxIsProper_iff. unfold clipSpectrumBBox; cbn.
    change (250 / 2) with 125. lia.
Qed.

Lemma calcSpectrumBBox_example_witness :
  calcSpectrumBBox defaultConfig {| getWidth := 1024; getHeight := 4000 |}
    (512, 512) 250 "+1"
  = Ok {| getMinX := 387; getMinY := 612; getMaxX := 636; getMaxY := 3999 |}
  /\ yEnd (rawSpectrumBBox defaultConfig (512, 512) 250 "+1") = 5611.
Proof.
  apply (calcSpectrumBBox_example 1024). lia.
Defined.

(** C1 as stated fails: the box is the stated one, but yEnd before
    clipping is 612 + 5000 - 1 = 5611, not 6111. *)
Lemma calcSpectrumBBox_example_not_6111 :
  ~ (calcSpectrumBBox defaultConfig {| getWidth := 637; getHeight := 4000 |}
       (512, 512) 250 "+1"
     = Ok {| getMinX := 387; getMinY := 612; getMaxX := 636; getMaxY := 3999 |}
     /\ yEnd (rawSpectrumBBox defaultConfig (512, 512) 250 "+1") = 6111).
Proof.
  intros [_ Hraw]. vm_compute in Hraw. discriminate Hraw.
Qed.

(** C2, as the code has it: before clipping, xStart = x - aperture//2 and
    xEnd = x + aperture//2 - 1, which is xStart + aperture - 1 less the
    remainder of aperture by two (so xStart + aperture - 1 for an even
    aperture); yStart = y + offset for order '+1',
    yStart = y - extractionLength - offset for order '-1', and
    yEnd = yStart + extractionLength - 1 in both orders. *)
Theorem rawSpectrumBBox_formulas config (x y aperture : Z) :
  let extent := spectrumLengthPixels config in
  let offset := offsetFromMainStar config in
  let plus := rawSpectrumBBox config (x, y) aperture "+1" in
  let minus := rawSpectrumBBox config (x, y) aperture "-1" in
  (xStart plus = x - aperture / 2
   /\ xEnd plus = xStart plus + aperture - 1 - aperture mod 2
   /\ yStart plus = y + offset
   /\ yEnd plus = yStart plus + extent - 1)
  /\ (xStart minus = x - aperture / 2
      /\ xEnd minus = xStart minus + aperture - 1 - aperture mod 2
      /\ yStart minus = y - extent - offset
      /\ yEnd minus = yStart minus + extent - 1).
Proof.
  intros extent offset plus minus.
  pose proof (Z.div_mod aperture 2 ltac:(lia)) as Hdm.
  subst plus minus extent offset; unfold rawSpectrumBBox; cbn.
  repeat split; lia.
Qed.

(** C2 as stated fails for an odd aperture: with aperture 251 the box runs
    from x - 125 to x + 124, one pixel short of xStart + aperture - 1. *)
Lemma rawSpectrumBBox_odd_aperture :
  ~ (xStart (rawSpectrumBBox defaultConfig (512, 512) 251 "+1") = 512 - 251 / 2
     /\ xEnd (rawSpectrumBBox defaultConfig (512, 512) 251 "+1")
        = xStart (rawSpectrumBBox defaultConfig (512, 512) 251 "+1") + 251 - 1).
Proof.
  intros [_ Hend]. vm_compute in Hend. discriminate Hend.
Qed.

(** C3: the clipped box has xEnd <= width-1, yEnd <= height-1, xStart >= 0
    and yStart >= 0, each corner being the raw one cut by one min or max;
    when xEnd > xStart and yEnd > yStart the calculator returns a box whose
    corners are those four clipped values (minimum (xStart, yStart), maximum
    (xEnd, yEnd)), and otherwise it fails its assertion. *)
Theorem calcSpectrumBBox_clips_then_asserts config exp centroid aperture order :
  let raw := rawSpectrumBBox config centroid aperture order in
  let b := clipSpectrumBBox exp raw in
  (xEnd b = Z.min (xEnd raw) (getWidth exp - 1)
   /\ yEnd b = Z.min (yEnd raw) (getHeight exp - 1)
   /\ xStart b = Z.max (xStart raw) 0
   /\ yStart b = Z.max (yStart raw) 0)
  /\ (xEnd b <= getWidth exp - 1 /\ yEnd b <= getHeight exp - 1
      /\ 0 <= xStart b /\ 0 <= yStart b)
  /\ (xEnd b > xStart b /\ yEnd b > yStart b ->
      exists box : Box2I,
        calcSpectrumBBox config exp centroid aperture order = Ok box
        /\ getMinX box = Z.max (xStart raw) 0
        /\ getMinY box = Z.max (yStart raw) 0
        /\ getMaxX box = Z.min (xEnd raw) (getWidth exp - 1)
        /\ getMaxY box = Z.min (yEnd raw) (getHeight exp - 1))
  /\ (~ (xEnd b > xStart b /\ yEnd b > yStart b) ->
      calcSpectrumBBox config exp centroid aperture order = Raise AssertionError).
Proof.
  intros raw b.
  split; [subst b; unfold clipSpectrumBBox; cbn; auto |].
  split; [subst b; unfold clipSpectrumBBox; cbn; lia |].
  split; intros Hb.
  - exists (toBox2I b). split.
    + apply calcSpectrumBBox_proper. now apply boxIsProper_iff.
    + subst b; unfold toBox2I, clipSpectrumBBox; cbn. auto.
  - apply calcSpectrumBBox_improper.
    destruct (boxIsProper _) eqn:E; [| reflexivity].
    apply boxIsProper_iff in E. contradiction.
Qed.

(** C4, as the code has it: order 'both' raises no unsupported-order error;
    the calculator returns exactly what it returns for order '+1'. *)
Theorem calcSpectrumBBox_both_is_plus config exp centroid aperture :
  calcSpectrumBBox config exp centroid aperture "both"
  = calcSpectrumBBox config exp centroid aperture "+1".
Proof.
  unfold calcSpectrumBBox.
  rewrite (rawSpectrumBBox_other_order config centroid aperture "both") by reflexivity.
  reflexivity.
Qed.

(** C4 as stated fails: on the example of C1, order 'both' raises nothing
    and yields the box of order '+1'. *)
Lemma calcSpectrumBBox_both_no_error :
  ~ raises (calcSpectrumBBox defaultConfig {| getWidth := 1024; getHeight := 4000 |}
              (512, 512) 250 "both").
Proof.
  intros [e He]. vm_compute in He. discriminate He.
Qed.

(** Order '-1' puts the box below the star: 3000 - 1000 - 100 = 1900. *)
Example calcSpectrumBBox_minus_one :
  calcSpectrumBBox {| spectrumLengthPixels := 1000; offsetFromMainStar := 100 |}
    {| getWidth := 1024; getHeight := 4000 |} (512, 3000) 250 "-1"
  = Ok {| getMinX := 387; getMinY := 1900; getMaxX := 636; getMaxY := 2899 |}.
Proof. reflexivity. Qed.

(** A star 50 rows from the top edge leaves no room above it. *)
Example calcSpectrumBBox_no_room :
  calcSpectrumBBox defaultConfig {| getWidth := 1024; getHeight := 4000 |}
    (512, 3950) 250 "+1"
  = Raise AssertionError.
Proof. reflexivity. Qed.

(** On a 1024 x 3000 image the box of the example of C1 is cut at the top
    row, 2999, and the other three corners are the raw ones. *)
Lemma calcSpectrumBBox_clips_then_asserts_witness :
  exists box : Box2I,
    calcSpectrumBBox defaultConfig {| getWidth := 1024; getHeight := 3000 |}
      (512, 512) 250 "+1" = Ok box
    /\ getMinX box = 387 /\ getMinY box = 612
    /\ getMaxX box = 636 /\ getMaxY box = 2999.
Proof.
  refine (proj1 (proj2 (proj2 (calcSpectrumBBox_clips_then_asserts
            defaultConfig {| getWidth := 1024; getHeight := 3000 |}
            (512, 512) 250 "+1"))) _).
  vm_compute. split; reflexivity.
Defined.
End BBoxFacts.

(** ** Python lists, floats and dictionaries *)

Module PyFacts.

Import Py.
Local Open Scope R_scope.

Lemma Rltb_true a b : Rltb a b = true <-> a < b.
Proof.
  unfold Rltb. destruct (Rlt_dec a b); split; intros; try easy.
Qed.

Lemma Rltb_false a b : Rltb a b = false <-> b <= a.
Proof.
  unfold Rltb. destruct (Rlt_dec a b); split; intros; try easy; lra.
Qed.

Lemma float_div_ok a b : b <> 0 -> float_div a b = Ok (a / b).
Proof.
  intros Hb. unfold float_div. destruct (Req_dec_T b 0); [contradiction | reflexivity].
Qed.

Lemma float_div_zero a b : b = 0 -> float_div a b = Raise ZeroDivisionError.
Proof.
  intros Hb. unfold float_div. destruct (Req_dec_T b 0); [reflexivity | contradiction].
Qed.

(** On its domain [x ** 0.5] is the square root. *)
Lemma float_pow_half_sqrt x : 0 <= x -> float_pow_half x = sqrt x.
Proof.
  intros Hx. unfold float_pow_half.
  destruct (Req_dec_T x 0) as [-> | Hne].
  - now rewrite sqrt_0.
  - replace (1 / 2) with (/ 2) by lra.
    apply Rpower_sqrt. lra.
Qed.

(** *** Indexing *)

Lemma list_getitem_nil {A : Type} (i : Z) :
  list_getitem (@nil A) i = Raise IndexError.
Proof.
  unfold list_getitem.
  destruct (_ && _); [| reflexivity].
  now destruct (Z.to_nat _).
Qed.

Lemma list_getitem_first {A : Type} (x : A) (l : list A) :
  list_getitem (x :: l) 0 = Ok x.
Proof.
  unfold list_getitem.
  change (0 <? 0)%Z with false. cbv iota.
  replace ((0 <=? 0) && (0 <? Z.of_nat (List.length (x :: l))))%Z with true.
  - reflexivity.
  - symmetry. apply andb_true_iff. split; [reflexivity |].
    apply Z.ltb_lt. cbn [List.length]. lia.
Qed.

Lemma list_getitem_last {A : Type} (l : list A) (x : A) :
  list_getitem (l ++ [x]) (-1) = Ok x.
Proof.
  unfold list_getitem.
  change (-1 <? 0)%Z with true. cbv iota.
  rewrite List.length_app. cbn [List.length].
  replace (-1 + Z.of_nat (List.length l + 1))%Z with (Z.of_nat (List.length l)) by lia.
  replace ((0 <=? Z.of_nat (List.length l))
           && (Z.of_nat (List.length l) <? Z.of_nat (List.length l + 1)))%Z with true.
  - rewrite Nat2Z.id, nth_error_app2 by lia.
    now rewrite Nat.sub_diag.
  - symmetry. apply andb_true_iff. split; [apply Z.leb_le | apply Z.ltb_lt]; lia.
Qed.

(** *** [sorted] *)

Lemma insort_In (x y : R) (l : list R) :
  In y (insort x l) <-> y = x \/ In y l.
Proof.
  induction l as [| z l IH]; cbn.
  - intuition.
  - destruct (Rle_dec x z); cbn; [intuition |].
    rewrite IH. intuition.
Qed.

Lemma sorted_In (y : R) (l : list R) : In y (sorted l) <-> In y l.
Proof.
  induction l as [| x l IH]; cbn; [reflexivity |].
  rewrite insort_In, IH. intuition.
Qed.

Lemma insort_sorted (x : R) (l : list R) :
  StronglySorted Rle l -> StronglySorted Rle (insort x l).
Proof.
  induction 1 as [| z l Hl IH Hz]; cbn.
  - repeat constructor.
  - destruct (Rle_dec x z) as [Hxz | Hxz].
    + constructor; [now constructor |].
      constructor; [exact Hxz |].
      eapply List.Forall_impl; [| exact Hz]. intros a Ha. cbn beta in Ha. lra.
    + constructor; [exact IH |].
      apply List.Forall_forall. intros a Ha.
      apply insort_In in Ha as [-> | Ha]; [lra |].
      rewrite List.Forall_forall in Hz. now apply Hz.
Qed.

Lemma sorted_sorted (l : list R) : StronglySorted Rle (sorted l).
Proof.
  induction l as [| x l IH]; cbn; [constructor | now apply insort_sorted].
Qed.

Lemma StronglySorted_last (l : list R) (m : R) :
  StronglySorted Rle (l ++ [m]) -> Forall (fun x => x <= m) l.
Proof.
  induction l as [| a l IH]; cbn; intros Hs; [constructor |].
  inversion Hs as [| ? ? Hl Ha]; subst.
  constructor; [| now apply IH].
  rewrite List.Forall_forall in Ha. apply Ha. apply in_or_app. right. now left.
Qed.

(** [sorted(l)[0]] is the least element of a non-empty [l]. *)
Lemma sorted_first_min (l : list R) :
  l <> [] ->
  exists m, list_getitem (sorted l) 0 = Ok m /\ In m l /\ forall x, In x l -> m <= x.
Proof.
  intros Hl.
  destruct (sorted l) as [| m t] eqn:E.
  - destruct l as [| x l]; [contradiction |].
    assert (In x (sorted (x :: l))) as Hx by (apply sorted_In; now left).
    rewrite E in Hx. contradiction.
  - exists m. split; [apply list_getitem_first |].
    pose proof (sorted_sorted l) as Hs. rewrite E in Hs.
    inversion Hs as [| ? ? Ht Hm]; subst.
    split.
    + apply sorted_In. rewrite E. now left.
    + intros x Hx. apply sorted_In in Hx. rewrite E in Hx.
      destruct Hx as [<- | Hx]; [lra |].
      rewrite List.Forall_forall in Hm. now apply Hm.
Qed.

(** [sorted(l)[-1]] is the greatest element of a non-empty [l]. *)
Lemma sorted_last_max (l : list R) :
  l <> [] ->
  exists m, list_getitem (sorted l) (-1) = Ok m /\ In m l /\ forall x, In x l -> x <= m.
Proof.
  intros Hl.
  destruct (exists_last (l := sorted l)) as (t & m & E).
  - intros E. destruct l as [| x l]; [contradiction |].
    assert (In x (sorted (x :: l))) as Hx by (apply sorted_In; now left).
    rewrite E in Hx. contradiction.
  - exists m. rewrite E. split; [apply list_getitem_last |].
    pose proof (sorted_sorted l) as Hs. rewrite E in Hs.
    apply StronglySorted_last in Hs.
    split.
    + apply sorted_In. rewrite E. apply in_or_app. right. now left.
    + intros x Hx. apply sorted_In in Hx. rewrite E in Hx.
      apply in_app_or in Hx as [Hx | [<- | []]]; [| lra].
      rewrite List.Forall_forall in Hs. now apply Hs.
Qed.

(** *** Dictionaries *)

Section Dict.
Context {V : Type}.
Implicit Types (d : dict V) (k : R) (v : V).

(** A new key goes to the end. *)
Lemma dict_setitem_fresh k v d :
  ~ In k (dict_keys d) -> dict_setitem k v d = d ++ [(k, v)].
Proof.
  induction d as [| [k' v'] d IH]; cbn; intros Hk; [reflexivity |].
  destruct (Req_dec_T k' k) as [-> | Hne]; [tauto |].
  rewrite IH; [reflexivity | tauto].
Qed.

(** Whatever [d[k] = v] leaves in the dictionary was there or holds [v]. *)
Lemma dict_setitem_entry k v d k' v' :
  In (k', v') (dict_setitem k v d) -> In (k', v') d \/ v' = v.
Proof.
  induction d as [| [k0 v0] d IH]; cbn.
  - intros [[= <- <-] | []]. now right.
  - destruct (Req_dec_T k0 k); cbn.
    + intros [[= <- <-] | Hin]; [now right | left; now right].
    + intros [Heq | Hin]; [left; now left |].
      destruct (IH Hin); [left; now right | now right].
Qed.

Lemma dict_getitem_entry d k v :
  dict_getitem d k = Ok v -> exists k', In (k', v) d.
Proof.
  induction d as [| [k0 v0] d IH]; cbn; [discriminate |].
  destruct (Req_dec_T k0 k).
  - intros [= <-]. exists k0. now left.
  - intros Hg. destruct (IH Hg) as [k' Hk']. exists k'. now right.
Qed.

Lemma dict_getitem_NoDup d k v :
  List.NoDup (dict_keys d) -> In (k, v) d -> dict_getitem d k = Ok v.
Proof.
  induction d as [| [k0 v0] d IH]; cbn; intros Hnd Hin; [contradiction |].
  apply List.NoDup_cons_iff in Hnd as [Hk0 Hnd].
  destruct Hin as [[= -> ->] | Hin].
  - destruct (Req_dec_T k k); [reflexivity | contradiction].
  - destruct (Req_dec_T k0 k) as [-> | Hne]; [| now apply IH].
    exfalso. apply Hk0. unfold dict_keys.
    change k with (fst (k, v)). now apply in_map.
Qed.

End Dict.

End PyFacts.

(** ** Ellipticity and the main-source selectors *)

Module SelectorFacts.

Import Py PyFacts Selector.
Local Open Scope R_scope.

Lemma result_bind_Ok {A B : Type} (a : A) (k : A -> result B) :
  Ok a ≫= k = k a.
Proof. reflexivity. Qed.

(** *** The ellipticity helper *)

Lemma sum_of_squares_nonneg (a b : R) : 0 <= a ^ 2 + b ^ 2.
Proof.
  pose proof (pow2_ge_0 a). pose proof (pow2_ge_0 b). lra.
Qed.

Lemma getEllipticity_ok (shape : Quadrupole) :
  hasEllipticity shape -> _getEllipticity shape = Ok (specEllipticity shape).
Proof.
  unfold hasEllipticity, _getEllipticity, specEllipticity, ePlus, eCross.
  intros Hsum.
  rewrite !float_div_ok by exact Hsum. cbn.
  rewrite float_pow_half_sqrt by apply sum_of_squares_nonneg.
  now rewrite !Rsqr_pow2.
Qed.

Lemma getEllipticity_degenerate (shape : Quadrupole) :
  getIxx shape + getIyy shape = 0 ->
  _getEllipticity shape = Raise ZeroDivisionError.
Proof.
  intros Hsum. unfold _getEllipticity. cbv zeta.
  rewrite !float_div_zero by exact Hsum. reflexivity.
Qed.

Lemma getEllipticity_Ok_inv (shape : Quadrupole) (e : R) :
  _getEllipticity shape = Ok e ->
  hasEllipticity shape /\ e = specEllipticity shape.
Proof.
  intros He.
  destruct (Req_dec_T (getIxx shape + getIyy shape) 0) as [Hz | Hnz].
  - rewrite getEllipticity_degenerate in He by exact Hz. discriminate He.
  - split; [exact Hnz |].
    rewrite getEllipticity_ok in He by exact Hnz. now injection He.
Qed.

Lemma specEllipticity_circular (shape : Quadrupole) :
  getIxx shape = getIyy shape -> getIxy shape = 0 -> specEllipticity shape = 0.
Proof.
  intros Hxx Hxy. unfold specEllipticity, ePlus, eCross.
  rewrite Hxx, Hxy.
  replace (getIyy shape - getIyy shape) with 0 by lra.
  replace (2 * 0) with 0 by lra.
  unfold Rdiv. rewrite !Rmult_0_l, Rsqr_0, Rplus_0_r.
  apply sqrt_0.
Qed.

(** C5: when Ixx + Iyy is not zero the helper returns
    sqrt(ePlus² + eCross²) with ePlus = (Ixx-Iyy)/(Ixx+Iyy) and
    eCross = 2·Ixy/(Ixx+Iyy); for Ixx = Iyy and Ixy = 0 that is 0. *)
Theorem getEllipticity_formula (shape : Quadrupole)
    (Hsum : getIxx shape + getIyy shape <> 0) :
  _getEllipticity shape
  = Ok (sqrt (((getIxx shape - getIyy shape) / (getIxx shape + getIyy shape))²
              + (2 * getIxy shape / (getIxx shape + getIyy shape))²))
  /\ (getIxx shape = getIyy shape -> getIxy shape = 0 ->
      _getEllipticity shape = Ok 0).
Proof.
  split.
  - now apply getEllipticity_ok.
  - intros Hxx Hxy.
    rewrite getEllipticity_ok by exact Hsum.
    f_equal. now apply specEllipticity_circular.
Qed.

Lemma getEllipticity_formula_witness :
  _getEllipticity {| getIxx := 1; getIyy := 1; getIxy := 0 |}
  = Ok (sqrt (((1 - 1) / (1 + 1))² + (2 * 0 / (1 + 1))²))
  /\ (1 = 1 -> 0 = 0 ->
      _getEllipticity {| getIxx := 1; getIyy := 1; getIxy := 0 |} = Ok 0).
Proof.
  apply (getEllipticity_formula {| getIxx := 1; getIyy := 1; getIxy := 0 |}).
  cbn. lra.
Defined.


(** *** The selection loops *)

Section Select.
Context `{Detection}.
Variable parentExp : Exposure.

Lemma roundestLoop_select (fluxCut : R) (fps : list Footprint) (d : dict Footprint) :
  roundestLoop fps parentExp fluxCut d
  = selectLoop (fun _ flux => Rltb fluxCut flux) (fun e _ => e) fps parentExp d.
Proof.
  revert d. induction fps as [| fp fps IH]; intros d; cbn; [reflexivity |].
  destruct (_getEllipticity (getShape fp)) as [e | err]; cbn; [| reflexivity].
  unfold Rltb. destruct (Rlt_dec fluxCut (footprintFlux fp parentExp)); apply IH.
Qed.

Lemma brightestLoop_select (roundnessCut : R) (fps : list Footprint) (d : dict Footprint) :
  brightestLoop fps parentExp roundnessCut d
  = selectLoop (fun e _ => Rltb e roundnessCut) (fun _ flux => flux) fps parentExp d.
Proof.
  revert d. induction fps as [| fp fps IH]; intros d; cbn; [reflexivity |].
  destruct (_getEllipticity (getShape fp)) as [e | err]; cbn; [| reflexivity].
  unfold Rltb. destruct (Rlt_dec e roundnessCut); apply IH.
Qed.

Section Generic.
Variables (keep : R -> R -> bool) (key : R -> R -> R).

Let keeps (fp : Footprint) : bool :=
  keep (ellipticityOf fp) (footprintFlux fp parentExp).

Let keyOf (fp : Footprint) : R :=
  key (ellipticityOf fp) (footprintFlux fp parentExp).

(** Whatever the loop files was kept: it is one of the footprints, its
    ellipticity was computed, and it passed the test. *)
Lemma selectLoop_entries (fps : list Footprint) (d d' : dict Footprint) :
  selectLoop keep key fps parentExp d = Ok d' ->
  forall k fp, In (k, fp) d' ->
    (exists k0, In (k0, fp) d)
    \/ (In fp fps /\ hasEllipticity (getShape fp) /\ keeps fp = true).
Proof.
  revert d. induction fps as [| fp0 fps IH]; intros d; cbn.
  - intros [= <-] k fp Hin. left. now exists k.
  - destruct (_getEllipticity (getShape fp0)) as [e | err] eqn:He; cbn; [| discriminate].
    apply getEllipticity_Ok_inv in He as [Hshape ->].
    intros Hloop k fp Hin.
    destruct (IH _ Hloop k fp Hin) as [[k0 Hk0] | (Hfp & Hs & Hk)].
    + fold (ellipticityOf fp0) in Hk0.
      destruct (keep _ _) eqn:Hkeep.
      * apply dict_setitem_entry in Hk0 as [Hold | ->].
        -- left. now exists k0.
        -- right. auto.
      * left. now exists k0.
    + right. auto.
Qed.

(** With every ellipticity defined and no two kept keys equal, the loop
    appends the kept footprints, in order, each under its key. *)
Lemma selectLoop_appends (fps : list Footprint) (d : dict Footprint) :
  Forall (fun fp => hasEllipticity (getShape fp)) fps ->
  List.NoDup (dict_keys d ++ List.map keyOf (List.filter keeps fps)) ->
  selectLoop keep key fps parentExp d
  = Ok (d ++ List.map (fun fp => (keyOf fp, fp)) (List.filter keeps fps)).
Proof.
  revert d. induction fps as [| fp fps IH]; intros d Hshapes Hnd; cbn.
  - now rewrite app_nil_r.
  - inversion Hshapes as [| ? ? Hfp Hrest]; subst.
    rewrite (getEllipticity_ok _ Hfp); cbn.
    fold (ellipticityOf fp). fold (keeps fp). fold (keyOf fp).
    cbn in Hnd. destruct (keeps fp) eqn:Hk; cbn in Hnd |- *.
    + assert (~ In (keyOf fp) (dict_keys d)) as Hfresh.
      { apply List.NoDup_remove_2 in Hnd. intros Hin. apply Hnd.
        apply in_or_app. now left. }
      rewrite dict_setitem_fresh by exact Hfresh.
      rewrite IH; [now rewrite <- app_assoc | exact Hrest |].
      unfold dict_keys in *. rewrite List.map_app, <- app_assoc. exact Hnd.
    + now apply IH.
Qed.

(** One candidate without an ellipticity stops the loop, whatever its flux. *)
Lemma selectLoop_degenerate (fps : list Footprint) (d : dict Footprint) :
  Exists (fun fp => getIxx (getShape fp) + getIyy (getShape fp) = 0) fps ->
  selectLoop keep key fps parentExp d = Raise ZeroDivisionError.
Proof.
  revert d. induction fps as [| fp fps IH]; intros d Hex.
  - inversion Hex.
  - cbn. destruct (Req_dec_T (getIxx (getShape fp) + getIyy (getShape fp)) 0) as [Hz | Hnz].
    + now rewrite getEllipticity_degenerate.
    + rewrite (getEllipticity_ok _ Hnz), result_bind_Ok.
      apply IH. inversion Hex; [contradiction | assumption].
Qed.

Lemma keys_of_filed (l : list Footprint) :
  dict_keys (List.map (fun fp => (keyOf fp, fp)) l) = List.map keyOf l.
Proof.
  unfold dict_keys. rewrite List.map_map. reflexivity.
Qed.

Lemma filed_getitem (l : list Footprint) (fp : Footprint) :
  List.NoDup (List.map keyOf l) -> In fp l ->
  dict_getitem (List.map (fun fp => (keyOf fp, fp)) l) (keyOf fp) = Ok fp.
Proof.
  intros Hnd Hin. apply dict_getitem_NoDup.
  - now rewrite keys_of_filed.
  - apply (in_map (fun fp => (keyOf fp, fp))). exact Hin.
Qed.

End Generic.

(** A footprint that a selector returns is one of the candidates and
    passed the cut, whatever the other candidates are. *)
Lemma getRoundestObject_survivor (fluxCut : R) (fps : list Footprint) (fp : Footprint) :
  getRoundestObject fps parentExp fluxCut = Ok fp ->
  In fp fps /\ fluxCut < footprintFlux fp parentExp.
Proof.
  unfold getRoundestObject. rewrite roundestLoop_select.
  destruct (selectLoop _ _ fps parentExp []) as [d |] eqn:Hloop; cbn; [| discriminate].
  destruct (list_getitem _ 0) as [k |]; cbn; [| discriminate].
  intros Hget. apply dict_getitem_entry in Hget as [k' Hk'].
  destruct (selectLoop_entries _ _ _ _ _ Hloop _ _ Hk') as [[k0 []] | (Hin & _ & Hkeep)].
  split; [exact Hin | now apply Rltb_true].
Qed.

Lemma getBrightestObject_survivor (roundnessCut : R) (fps : list Footprint) (fp : Footprint) :
  getBrightestObject fps parentExp roundnessCut = Ok fp ->
  In fp fps /\ hasEllipticity (getShape fp) /\ ellipticityOf fp < roundnessCut.
Proof.
  unfold getBrightestObject. rewrite brightestLoop_select.
  destruct (selectLoop _ _ fps parentExp []) as [d |] eqn:Hloop; cbn; [| discriminate].
  destruct (list_getitem _ (-1)) as [k |]; cbn; [| discriminate].
  intros Hget. apply dict_getitem_entry in Hget as [k' Hk'].
  destruct (selectLoop_entries _ _ _ _ _ Hloop _ _ Hk') as [[k0 []] | (Hin & Hs & Hkeep)].
  split; [exact Hin | split; [exact Hs | now apply Rltb_true]].
Qed.

Lemma getRoundestObject_degenerate (fluxCut : R) (fps : list Footprint) :
  Exists (fun fp => getIxx (getShape fp) + getIyy (getShape fp) = 0) fps ->
  getRoundestObject fps parentExp fluxCut = Raise ZeroDivisionError.
Proof.
  intros Hex. unfold getRoundestObject.
  rewrite roundestLoop_select, selectLoop_degenerate by exact Hex. reflexivity.
Qed.

Lemma getBrightestObject_degenerate (roundnessCut : R) (fps : list Footprint) :
  Exists (fun fp => getIxx (getShape fp) + getIyy (getShape fp) = 0) fps ->
  getBrightestObject fps parentExp roundnessCut = Raise ZeroDivisionError.
Proof.
  intros Hex. unfold getBrightestObject.
  rewrite brightestLoop_select, selectLoop_degenerate by exact Hex. reflexivity.
Qed.

(** C6, as the code has it: in Roundest-mode, when every candidate region
    has Ixx + Iyy different from zero, at least one region has flux
    strictly above the cutoff and the surviving regions have pairwise
    distinct ellipticities, the selector returns the surviving region of
    minimum ellipticity; a region with flux at most the cutoff is never
    returned. *)
Theorem getRoundestObject_min (fluxCut : R) (fps : list Footprint) :
  Forall (fun fp => hasEllipticity (getShape fp)) fps ->
  (exists fp, In fp fps /\ fluxCut < footprintFlux fp parentExp) ->
  List.NoDup (List.map ellipticityOf (brighterThan fluxCut parentExp fps)) ->
  exists best,
    getRoundestObject fps parentExp fluxCut = Ok best
    /\ In best fps
    /\ fluxCut < footprintFlux best parentExp
    /\ (forall fp, In fp fps -> fluxCut < footprintFlux fp parentExp ->
        ellipticityOf best <= ellipticityOf fp)
    /\ (forall fp, In fp fps -> footprintFlux fp parentExp <= fluxCut ->
        getRoundestObject fps parentExp fluxCut <> Ok fp).
Proof.
  intros Hshapes (fp0 & Hin0 & Hflux0) Hnd.
  set (S := brighterThan fluxCut parentExp fps) in *.
  assert (In fp0 S) as HS0 by (apply filter_In; split; [| apply Rltb_true]; assumption).
  destruct (sorted_first_min (List.map ellipticityOf S)) as (m & Hfirst & Hm & Hmin).
  { intros E. apply (in_map ellipticityOf) in HS0. rewrite E in HS0. contradiction. }
  apply in_map_iff in Hm as (best & <- & HbestS).
  assert (getRoundestObject fps parentExp fluxCut = Ok best) as Hres.
  { unfold getRoundestObject. rewrite roundestLoop_select.
    rewrite selectLoop_appends by assumption.
    rewrite result_bind_Ok, app_nil_l.
    fold (brighterThan fluxCut parentExp fps). fold S.
    rewrite (keys_of_filed (fun e _ => e)). cbv beta.
    change (fun fp : Footprint => ellipticityOf fp) with ellipticityOf.
    rewrite Hfirst, result_bind_Ok.
    now apply (filed_getitem (fun e _ => e)). }
  exists best. split; [exact Hres |].
  apply filter_In in HbestS as [Hbest Hbright]. apply Rltb_true in Hbright.
  repeat split; try assumption.
  - intros fp Hfp Hbr. apply Hmin. apply in_map.
    apply filter_In. split; [| apply Rltb_true]; assumption.
  - intros fp _ Hfaint Hret.
    apply getRoundestObject_survivor in Hret as [_ Hbr]. lra.
Qed.

(** C7, as the code has it: in Brightest-mode, when every candidate region
    has Ixx + Iyy different from zero, at least one region has ellipticity
    strictly below the cutoff and the surviving regions have pairwise
    distinct fluxes, the selector returns the surviving region of maximum
    flux; a region with ellipticity at least the cutoff is never returned. *)
Theorem getBrightestObject_max (roundnessCut : R) (fps : list Footprint) :
  Forall (fun fp => hasEllipticity (getShape fp)) fps ->
  (exists fp, In fp fps /\ ellipticityOf fp < roundnessCut) ->
  List.NoDup (List.map (fun fp => footprintFlux fp parentExp)
                (rounderThan roundnessCut fps)) ->
  exists best,
    getBrightestObject fps parentExp roundnessCut = Ok best
    /\ In best fps
    /\ ellipticityOf best < roundnessCut
    /\ (forall fp, In fp fps -> ellipticityOf fp < roundnessCut ->
        footprintFlux fp parentExp <= footprintFlux best parentExp)
    /\ (forall fp, In fp fps -> roundnessCut <= ellipticityOf fp ->
        getBrightestObject fps parentExp roundnessCut <> Ok fp).
Proof.
  intros Hshapes (fp0 & Hin0 & He0) Hnd.
  set (S := rounderThan roundnessCut fps) in *.
  set (flux := fun fp : Footprint => footprintFlux fp parentExp) in *.
  assert (In fp0 S) as HS0 by (apply filter_In; split; [| apply Rltb_true]; assumption).
  destruct (sorted_last_max (List.map flux S)) as (m & Hlast & Hm & Hmax).
  { intros E. apply (in_map flux) in HS0. rewrite E in HS0. contradiction. }
  apply in_map_iff in Hm as (best & <- & HbestS).
  assert (getBrightestObject fps parentExp roundnessCut = Ok best) as Hres.
  { unfold getBrightestObject. rewrite brightestLoop_select.
    rewrite selectLoop_appends by assumption.
    rewrite result_bind_Ok, app_nil_l.
    fold (rounderThan roundnessCut fps). fold S.
    rewrite (keys_of_filed (fun _ f => f)). cbv beta. fold flux.
    rewrite Hlast, result_bind_Ok.
    now apply (filed_getitem (fun _ f => f)). }
  exists best. split; [exact Hres |].
  apply filter_In in HbestS as [Hbest Hround]. apply Rltb_true in Hround.
  repeat split; try assumption.
  - intros fp Hfp Hr. apply Hmax. apply (in_map flux).
    apply filter_In. split; [| apply Rltb_true]; assumption.
  - intros fp _ Hlong Hret.
    apply getBrightestObject_survivor in Hret as (_ & _ & Hr). lra.
Qed.

End Select.

(** One turn of the Roundest loop. *)
Section Step.
Context `{Detection}.

Lemma roundestLoop_cons (fp : Footprint) (rest : list Footprint)
    (parentExp : Exposure) (fluxCut : R) (d : dict Footprint) :
  hasEllipticity (getShape fp) ->
  roundestLoop (fp :: rest) parentExp fluxCut d
  = roundestLoop rest parentExp fluxCut
      (if Rltb fluxCut (footprintFlux fp parentExp)
       then dict_setitem (ellipticityOf fp) fp d else d).
Proof.
  intros Hfp. cbn. rewrite (getEllipticity_ok _ Hfp), result_bind_Ok.
  unfold Rltb. now destruct (Rlt_dec _ _).
Qed.

End Step.

(** *** The selectors on four footprints *)

Lemma flux_roundStar : @footprintFlux listDetection roundStar tt = 10.
Proof. unfold footprintFlux, array_sum; cbn. lra. Qed.

Lemma flux_streak : @footprintFlux listDetection streak tt = 20.
Proof. unfold footprintFlux, array_sum; cbn. lra. Qed.

Lemma flux_faintBlob : @footprintFlux listDetection faintBlob tt = 1.
Proof. unfold footprintFlux, array_sum; cbn. lra. Qed.

Lemma flux_singlePixel : @footprintFlux listDetection singlePixel tt = 0.
Proof. unfold footprintFlux, array_sum; cbn. lra. Qed.

Lemma ellipticityOf_roundStar : @ellipticityOf listDetection roundStar = 0.
Proof. now apply specEllipticity_circular. Qed.

Lemma ellipticityOf_faintBlob : @ellipticityOf listDetection faintBlob = 0.
Proof. now apply specEllipticity_circular. Qed.

Lemma ellipticityOf_streak : @ellipticityOf listDetection streak = 1 / 2.
Proof.
  unfold ellipticityOf, specEllipticity, ePlus, eCross; cbn.
  replace ((3 - 1) / (3 + 1)) with (1 / 2) by field.
  replace (2 * 0 / (3 + 1)) with 0 by field.
  rewrite Rsqr_0, Rplus_0_r.
  apply sqrt_Rsqr. lra.
Qed.

Lemma getRoundestObject_min_witness :
  exists best,
    @getRoundestObject listDetection [streak; roundStar; faintBlob] tt 5 = Ok best
    /\ In best [streak; roundStar; faintBlob]
    /\ 5 < @footprintFlux listDetection best tt
    /\ (forall fp, In fp [streak; roundStar; faintBlob] ->
        5 < @footprintFlux listDetection fp tt ->
        @ellipticityOf listDetection best <= @ellipticityOf listDetection fp)
    /\ (forall fp, In fp [streak; roundStar; faintBlob] ->
        @footprintFlux listDetection fp tt <= 5 ->
        @getRoundestObject listDetection [streak; roundStar; faintBlob] tt 5 <> Ok fp).
Proof.
  apply (@getRoundestObject_min listDetection tt 5 [streak; roundStar; faintBlob]).
  - repeat constructor; unfold hasEllipticity; cbn; lra.
  - exists roundStar. split; [right; now left | rewrite flux_roundStar; lra].
  - unfold brighterThan; cbn [List.filter].
    rewrite flux_streak, flux_roundStar, flux_faintBlob.
    rewrite (proj2 (Rltb_true 5 20)), (proj2 (Rltb_true 5 10)),
      (proj2 (Rltb_false 5 1)) by lra.
    cbn [List.map]. rewrite ellipticityOf_streak, ellipticityOf_roundStar.
    repeat constructor; cbn; [lra | tauto].
Defined.

(** C6 as stated fails: one bright round star survives the cut, no two
    survivors share an ellipticity, and yet nothing is returned, because the
    faint single pixel has Ixx + Iyy = 0 and its ellipticity is computed
    before its flux is looked at. *)
Lemma getRoundestObject_single_pixel :
  (exists fp, In fp [roundStar; singlePixel]
              /\ 5 < @footprintFlux listDetection fp tt)
  /\ List.NoDup (List.map (@ellipticityOf listDetection)
                   (@brighterThan listDetection 5 tt [roundStar; singlePixel]))
  /\ @getRoundestObject listDetection [roundStar; singlePixel] tt 5
     = Raise ZeroDivisionError.
Proof.
  split; [| split].
  - exists roundStar. split; [now left | rewrite flux_roundStar; lra].
  - unfold brighterThan; cbn [List.filter].
    rewrite flux_roundStar, flux_singlePixel.
    rewrite (proj2 (Rltb_true 5 10)), (proj2 (Rltb_false 5 0)) by lra.
    cbn [List.map]. constructor; [cbn; tauto | constructor].
  - apply getRoundestObject_degenerate.
    right. left. cbn. lra.
Qed.

Lemma getBrightestObject_max_witness :
  exists best,
    @getBrightestObject listDetection [roundStar; streak; faintBlob] tt 1 = Ok best
    /\ In best [roundStar; streak; faintBlob]
    /\ @ellipticityOf listDetection best < 1
    /\ (forall fp, In fp [roundStar; streak; faintBlob] ->
        @ellipticityOf listDetection fp < 1 ->
        @footprintFlux listDetection fp tt <= @footprintFlux listDetection best tt)
    /\ (forall fp, In fp [roundStar; streak; faintBlob] ->
        1 <= @ellipticityOf listDetection fp ->
        @getBrightestObject listDetection [roundStar; streak; faintBlob] tt 1 <> Ok fp).
Proof.
  apply (@getBrightestObject_max listDetection tt 1 [roundStar; streak; faintBlob]).
  - repeat constructor; unfold hasEllipticity; cbn; lra.
  - exists roundStar. split; [now left | rewrite ellipticityOf_roundStar; lra].
  - unfold rounderThan; cbn [List.filter].
    rewrite ellipticityOf_roundStar, ellipticityOf_streak, ellipticityOf_faintBlob.
    rewrite (proj2 (Rltb_true 0 1)), (proj2 (Rltb_true (1 / 2) 1)) by lra.
    cbn [List.map]. rewrite flux_roundStar, flux_streak, flux_faintBlob.
    repeat constructor; cbn; intros Hin; intuition lra.
Defined.

(** C7 as stated fails in the same way: the round star is below the
    roundness cutoff, no two regions share a flux, and the single pixel
    stops the selector with a division by zero. *)
Lemma getBrightestObject_single_pixel :
  (exists fp, In fp [roundStar; singlePixel]
              /\ @ellipticityOf listDetection fp < 1)
  /\ List.NoDup (List.map (fun fp => @footprintFlux listDetection fp tt)
                   [roundStar; singlePixel])
  /\ @getBrightestObject listDetection [roundStar; singlePixel] tt 1
     = Raise ZeroDivisionError.
Proof.
  split; [| split].
  - exists roundStar. split; [now left | rewrite ellipticityOf_roundStar; lra].
  - cbn [List.map]. rewrite flux_roundStar, flux_singlePixel.
    repeat constructor; cbn; [lra | tauto].
  - apply getBrightestObject_degenerate. right. left. cbn. lra.
Qed.

(** Two survivors of equal ellipticity share one key: the later one takes
    the earlier one's place, and it is the one returned. *)
Example getRoundestObject_tie :
  @getRoundestObject listDetection [roundStar; faintBlob] tt (1 / 2) = Ok faintBlob.
Proof.
  unfold getRoundestObject.
  rewrite !roundestLoop_cons by (unfold hasEllipticity; cbn; lra).
  rewrite flux_roundStar, flux_faintBlob.
  rewrite (proj2 (Rltb_true (1 / 2) 10)), (proj2 (Rltb_true (1 / 2) 1)) by lra.
  rewrite ellipticityOf_roundStar, ellipticityOf_faintBlob.
  cbn [roundestLoop dict_setitem].
  destruct (Req_dec_T 0 0) as [_ | Hne]; [| contradiction].
  rewrite result_bind_Ok. cbn [dict_keys List.map fst sorted List.fold_right insort].
  rewrite list_getitem_first, result_bind_Ok. cbn [dict_getitem].
  now destruct (Req_dec_T 0 0).
Qed.
End SelectorFacts.

(** ** Traces and outcomes of composed computations *)

Module EffectsFacts.

Import Effects.

Lemma IO_eta {A : Type} (m : IO A) : m = mkIO (trace m) (outcome m).
Proof. now destruct m. Qed.

Lemma bind_Ok {A B : Type} (t : list Event) (a : A) (k : A -> IO B) :
  mkIO t (Ok a) ≫= k = mkIO (t ++ trace (k a)) (outcome (k a)).
Proof. reflexivity. Qed.

Lemma bind_Raise {A B : Type} (t : list Event) (e : PyExc) (k : A -> IO B) :
  mkIO t (Raise e) ≫= k = mkIO t (Raise e).
Proof. reflexivity. Qed.

Lemma try_except_Ok {A : Type} (t : list Event) (a : A) catches handler :
  try_except (mkIO t (Ok a)) catches handler = mkIO t (Ok a).
Proof. reflexivity. Qed.

Lemma try_except_caught {A : Type} (t : list Event) (e : PyExc) catches
    (handler : PyExc -> IO A) :
  catches e = true ->
  try_except (mkIO t (Raise e)) catches handler
  = mkIO (t ++ trace (handler e)) (outcome (handler e)).
Proof. intros Hc. unfold try_except; cbn. now rewrite Hc. Qed.

Lemma try_except_uncaught {A : Type} (t : list Event) (e : PyExc) catches
    (handler : PyExc -> IO A) :
  catches e = false ->
  try_except (mkIO t (Raise e)) catches handler = mkIO t (Raise e).
Proof. intros Hc. unfold try_except; cbn. now rewrite Hc. Qed.

Lemma isValueError_true (e : PyExc) :
  isValueError e = true <-> exists args, e = ValueError args.
Proof.
  split.
  - destruct e; try discriminate. intros _. now eexists.
  - now intros [args ->].
Qed.

End EffectsFacts.

(** ** The target locator *)

Module LocatorFacts.

Import Py Effects EffectsFacts Locator.
Local Open Scope string_scope.

Section Locate.
Context `{Services}.
Variables (exp : Exposure) (target : string) (doMotionCorrection : bool).

(** The Vizier lookup asks Vizier once and does nothing else to the world. *)
Lemma vizierLocationForTarget_trace :
  trace (vizierLocationForTarget exp target doMotionCorrection) = [VizierQuery target].
Proof.
  unfold vizierLocationForTarget.
  destruct (Vizier_query_object target) as [result | e]; cbn; [| reflexivity].
  destruct (TableList_getitem result "I/311/hip2") as [star | []]; cbn;
    try reflexivity.
  destruct (hipparcosCoord star) as [coord | e]; cbn; [| reflexivity].
  destruct doMotionCorrection; cbn; [| reflexivity].
  destruct (apply_space_motion coord exp); reflexivity.
Qed.

Lemma simbadLocationForTarget_trace :
  trace (simbadLocationForTarget target) = [SimbadQuery target].
Proof.
  unfold simbadLocationForTarget.
  destruct (Simbad_query_object target) as [[[| row [| row' rows]] |] | e]; cbn;
    try reflexivity.
  destruct (simbadCoord row); reflexivity.
Qed.

(** Zero or several Simbad entries: a [ValueError] with a message. *)
Lemma simbadLocationForTarget_not_unique (reply : option (list SimbadRow)) :
  Simbad_query_object target = Ok reply ->
  (reply = None \/ exists rows, reply = Some rows /\ List.length rows <> 1%nat) ->
  exists msg, outcome (simbadLocationForTarget target) = Raise (ValueError [msg]).
Proof.
  intros Hq Hreply. unfold simbadLocationForTarget. rewrite Hq.
  destruct Hreply as [-> | (rows & -> & Hlen)]; cbn.
  - now eexists.
  - destruct rows as [| row [| row' rows]]; cbn; [now eexists | | now eexists].
    now contradiction Hlen.
Qed.

(** What the two nested [try] blocks do, by how the Vizier lookup ended. *)
Lemma lookupTarget_vizier_found (loc : SpherePoint) :
  outcome (vizierLocationForTarget exp target doMotionCorrection) = Ok loc ->
  lookupTarget exp target doMotionCorrection
  = mkIO [VizierQuery target;
          LogInfo ("Target location for " ++ target ++ " retrieved from Vizier")]
         (Ok (Some (loc, "vizier"))).
Proof.
  intros Hv. unfold lookupTarget.
  pose proof vizierLocationForTarget_trace as Ht.
  destruct (vizierLocationForTarget exp target doMotionCorrection) as [vt vo].
  cbn in Hv, Ht. subst vt vo. reflexivity.
Qed.

Lemma lookupTarget_vizier_crashed (e : PyExc) :
  outcome (vizierLocationForTarget exp target doMotionCorrection) = Raise e ->
  isValueError e = false ->
  lookupTarget exp target doMotionCorrection = mkIO [VizierQuery target] (Raise e).
Proof.
  intros Hv He. unfold lookupTarget.
  pose proof vizierLocationForTarget_trace as Ht.
  destruct (vizierLocationForTarget exp target doMotionCorrection) as [vt vo].
  cbn in Hv, Ht. subst vt vo.
  rewrite bind_Raise. now apply try_except_uncaught.
Qed.

Lemma lookupTarget_simbad_not_unique (args : list string) (msg : string) :
  outcome (vizierLocationForTarget exp target doMotionCorrection)
  = Raise (ValueError args) ->
  outcome (simbadLocationForTarget target) = Raise (ValueError [msg]) ->
  lookupTarget exp target doMotionCorrection
  = mkIO [VizierQuery target;
          LogWarn ("Target " ++ target
                     ++ " not found in Vizier, failing over to try Simbad");
          SimbadQuery target;
          LogWarn msg]
         (Ok None).
Proof.
  intros Hv Hs. unfold lookupTarget.
  pose proof vizierLocationForTarget_trace as Ht.
  pose proof simbadLocationForTarget_trace as Hst.
  destruct (vizierLocationForTarget exp target doMotionCorrection) as [vt vo].
  destruct (simbadLocationForTarget target) as [st so].
  cbn in Hv, Ht, Hs, Hst. subst vt vo st so. reflexivity.
Qed.

(** After a [ValueError] of the Vizier lookup the locator logs the
    fail-over warning and asks Simbad, however the Simbad lookup ends. *)
Lemma getTargetCentroidFromWcs_fails_over (args : list string) :
  outcome (vizierLocationForTarget exp target doMotionCorrection)
  = Raise (ValueError args) ->
  exists rest,
    trace (getTargetCentroidFromWcs exp target doMotionCorrection)
    = VizierQuery target
      :: LogWarn ("Target " ++ target
                    ++ " not found in Vizier, failing over to try Simbad")
      :: SimbadQuery target :: rest.
Proof.
  intros Hv. unfold getTargetCentroidFromWcs, lookupTarget.
  pose proof vizierLocationForTarget_trace as Ht.
  pose proof simbadLocationForTarget_trace as Hst.
  destruct (vizierLocationForTarget exp target doMotionCorrection) as [vt vo].
  destruct (simbadLocationForTarget target) as [st so].
  cbn in Hv, Ht, Hst. subst vt vo st.
  rewrite bind_Raise, try_except_caught by reflexivity.
  destruct so as [loc | e]; cbn.
  - destruct doMotionCorrection; cbn; destruct (skyToPixel exp loc); cbn; now eexists.
  - destruct (isValueError e); cbn; [| now eexists].
    destruct (list_getitem (exc_args e) 0); cbn; now eexists.
Qed.

(** C8: the locator asks Vizier first; it asks Simbad only after the
    Vizier lookup has failed with a ValueError, and after such a failure it
    does ask Simbad: the Vizier query, the fail-over warning and the Simbad
    query follow one another.  When Simbad then has no entry or several, the
    Simbad lookup raises a ValueError with one message, and the locator has
    done exactly those three things and logged that message, and it returns
    None, raising nothing.  When the Vizier lookup succeeds the locator does
    not return None: it ends as the conversion of Vizier's position to a
    pixel ends. *)
Theorem getTargetCentroidFromWcs_fallback :
  let attempt := getTargetCentroidFromWcs exp target doMotionCorrection in
  let vizier := vizierLocationForTarget exp target doMotionCorrection in
  let failover :=
    LogWarn ("Target " ++ target
               ++ " not found in Vizier, failing over to try Simbad") in
  (exists rest, trace attempt = VizierQuery target :: rest)
  /\ (forall t, In (SimbadQuery t) (trace attempt) ->
      exists args, outcome vizier = Raise (ValueError args))
  /\ (forall args,
      outcome vizier = Raise (ValueError args) ->
      exists rest,
        trace attempt = VizierQuery target :: failover :: SimbadQuery target :: rest)
  /\ (forall args reply,
      outcome vizier = Raise (ValueError args) ->
      Simbad_query_object target = Ok reply ->
      (reply = None \/ exists rows, reply = Some rows /\ List.length rows <> 1%nat) ->
      exists msg,
        outcome (simbadLocationForTarget target) = Raise (ValueError [msg])
        /\ attempt
           = mkIO [VizierQuery target; failover; SimbadQuery target; LogWarn msg]
                  (Ok None))
  /\ (forall loc,
      outcome vizier = Ok loc ->
      outcome attempt = (pixCoord ← skyToPixel exp loc; Ok (Some pixCoord))).
Proof.
  intros attempt vizier failover. subst attempt failover.
  destruct (outcome vizier) as [loc | e] eqn:Hv; subst vizier.
  - (* Vizier found the target: Simbad is never asked. *)
    unfold getTargetCentroidFromWcs.
    rewrite (lookupTarget_vizier_found loc Hv), bind_Ok.
    change (String.eqb "vizier" "simbad") with false.
    rewrite andb_false_r.
    split; [now eexists |].
    split; [| split; [intros args [=] |]].
    + intros t Hin. exfalso.
      destruct (skyToPixel exp loc); cbn in Hin; intuition discriminate.
    + split; [intros args reply [=] |].
      intros loc' [= <-]. now destruct (skyToPixel exp loc).
  - destruct (isValueError e) eqn:He.
    + apply isValueError_true in He as [args ->].
      destruct (getTargetCentroidFromWcs_fails_over args Hv) as [rest Hrest].
      split; [rewrite Hrest; now eexists |].
      split; [intros; now exists args |].
      split; [intros; now exists rest |].
      split; [| intros loc [=]].
      intros args' reply _ Hq Hreply.
      destruct (simbadLocationForTarget_not_unique reply Hq Hreply) as [msg Hs].
      exists msg. split; [exact Hs |].
      unfold getTargetCentroidFromWcs.
      now rewrite (lookupTarget_simbad_not_unique args msg Hv Hs).
    + (* Vizier failed with something else: the exception is not caught. *)
      unfold getTargetCentroidFromWcs.
      rewrite (lookupTarget_vizier_crashed e Hv He), bind_Raise.
      split; [now eexists |].
      split; [intros t [Hin | []]; discriminate Hin |].
      split; [intros args [= ->]; discriminate He |].
      split; [intros args reply [= ->]; discriminate He | intros loc [=]].
Qed.

End Locate.

(** A star that neither catalogue knows: both queries are made, in that
    order, and the locator returns [None]. *)
Example getTargetCentroidFromWcs_unknown_star :
  @getTargetCentroidFromWcs emptyCatalogues tt "HD 55852" true
  = mkIO [VizierQuery "HD 55852";
          LogWarn "Target HD 55852 not found in Vizier, failing over to try Simbad";
          SimbadQuery "HD 55852";
          LogWarn "Found failed to find HD 55852 in simbad!"]
         (Ok None).
Proof. reflexivity. Qed.

Lemma getTargetCentroidFromWcs_fallback_witness :
  exists msg,
    outcome (@simbadLocationForTarget emptyCatalogues "HD 55852")
    = Raise (ValueError [msg])
    /\ @getTargetCentroidFromWcs emptyCatalogues tt "HD 55852" true
       = mkIO [VizierQuery "HD 55852";
               LogWarn ("Target " ++ "HD 55852"
                          ++ " not found in Vizier, failing over to try Simbad");
               SimbadQuery "HD 55852";
               LogWarn msg]
              (Ok None).
Proof.
  refine (proj1 (proj2 (proj2 (proj2 (@getTargetCentroidFromWcs_fallback
                          emptyCatalogues tt "HD 55852" true)))) [] None _ _ _).
  - reflexivity.
  - reflexivity.
  - now left.
Defined.

End LocatorFacts.

(** ** The target-name check of [run] *)

Module RunFacts.

Import Effects EffectsFacts Run.
Local Open Scope string_scope.

Lemma notCelestial_decide (target : string) :
  bool_decide (target ∈ notCelestial) = true <-> In target notCelestial.
Proof.
  rewrite bool_decide_eq_true. apply list_elem_of_In.
Qed.

Lemma resolveTarget_outcome (md : gmap string string) (forceObjectName object : string) :
  md !! "OBJECT" = Some object ->
  outcome (resolveTarget md forceObjectName)
  = Ok (if negb (String.eqb forceObjectName "") then forceObjectName else object).
Proof.
  intros Hmd. unfold resolveTarget, metadata_getitem. rewrite Hmd.
  now destruct (negb _).
Qed.

(** Resolving the name only logs. *)
Lemma resolveTarget_trace (md : gmap string string) (forceObjectName : string) :
  Forall (fun ev => isSpectractorRun ev = false) (trace (resolveTarget md forceObjectName)).
Proof.
  unfold resolveTarget, metadata_getitem.
  destruct (md !! "OBJECT"); cbn; [| constructor].
  destruct (negb _); cbn; repeat constructor.
Qed.

(** C9: when the resolved target name is 'FlatField position',
    'Park position', 'Test' or 'NOTSET', [run] raises ValueError and the
    extraction is not entered; for any other name the check raises nothing,
    the extraction is entered with that name, and [run] ends as the
    extraction ends. *)
Theorem run_refuses_placeholder_targets (md : gmap string string)
    (forceObjectName object : string) (spectractor_run : string -> result unit) :
  md !! "OBJECT" = Some object ->
  let target := if negb (String.eqb forceObjectName "") then forceObjectName else object in
  let step := run md forceObjectName spectractor_run in
  (In target notCelestial ->
     (exists msg, outcome step = Raise (ValueError [msg]))
     /\ Forall (fun ev => isSpectractorRun ev = false) (trace step))
  /\ (~ In target notCelestial ->
     outcome step = spectractor_run target
     /\ In (SpectractorRun target) (trace step)).
Proof.
  intros Hmd target step.
  pose proof (resolveTarget_outcome md forceObjectName object Hmd) as Hout.
  pose proof (resolveTarget_trace md forceObjectName) as Htr.
  fold target in Hout. subst step. unfold run.
  destruct (resolveTarget md forceObjectName) as [rt ro]. cbn in Hout, Htr. subst ro.
  rewrite bind_Ok.
  split; intros Htarget.
  - rewrite (proj2 (notCelestial_decide target) Htarget). cbn.
    split; [now eexists |].
    now rewrite app_nil_r.
  - destruct (bool_decide (target ∈ notCelestial)) eqn:Hdec.
    + apply notCelestial_decide in Hdec. contradiction.
    + cbn. split; [reflexivity |].
      apply in_or_app. right. now left.
Qed.

Lemma run_refuses_placeholder_targets_witness :
  ((exists msg, outcome (run {[ "OBJECT" := "Park position" ]} "" (fun _ => Ok tt))
                = Raise (ValueError [msg]))
   /\ Forall (fun ev => isSpectractorRun ev = false)
        (trace (run {[ "OBJECT" := "Park position" ]} "" (fun _ => Ok tt)))).
Proof.
  refine (proj1 (run_refuses_placeholder_targets
                   {[ "OBJECT" := "Park position" ]} "" "Park position"
                   (fun _ => Ok tt) _) _).
  - reflexivity.
  - right. now left.
Defined.

(** A star goes through, and a forced name replaces the header's. *)
Example run_accepts_star :
  run {[ "OBJECT" := "HD 55852" ]} "" (fun _ => Ok tt)
  = mkIO [SpectractorRun "HD 55852"] (Ok tt).
Proof. reflexivity. Qed.

Example run_forced_name_is_checked :
  run {[ "OBJECT" := "HD 55852" ]} "NOTSET" (fun _ => Ok tt)
  = mkIO [LogWarn "Forcing target name from HD 55852 to NOTSET"]
         (Raise (ValueError ["OBJECT set to NOTSET - this is not a celestial object!"])).
Proof. reflexivity. Qed.

End RunFacts.

(** ** [makeGainFlat] *)

Module GainFlatFacts.

Import BBox GainFlat.
Local Open Scope Z_scope.

Lemma setImageInBox_inv (flat flat' : Exposure) (bbox : Box2I) (value : R) :
  setImageInBox flat bbox value = Ok flat' ->
  boxContainsBox (getExposureBBox flat) bbox = true
  /\ getExposureBBox flat' = getExposureBBox flat
  /\ (forall p, image flat' p
                = if boxContainsPixel bbox p then value else image flat p).
Proof.
  unfold setImageInBox.
  destruct (boxContainsBox _ _); [| discriminate].
  intros [= <-]. cbn. auto.
Qed.

(** The names of the detector are the keys of the dictionary: every
    amplifier has a gain. *)
Lemma gain_of_amp (detector : list Amplifier) (gainDict : gmap string R) (amp : Amplifier) :
  dom gainDict = list_to_set (List.map getName detector) ->
  In amp detector ->
  exists g, gainDict !! getName amp = Some g.
Proof.
  intros Hdom Hin.
  apply (elem_of_dom (D := gset string)). rewrite Hdom.
  apply elem_of_list_to_set, list_elem_of_In. now apply in_map.
Qed.

Section Loop.
Variable gainDict : gmap string R.

(** The loop runs to its end when every amplifier has a gain and a box that
    fits. *)
Lemma gainLoop_runs (amps : list Amplifier) (flat : Exposure) :
  Forall (fun amp => exists g, gainDict !! getName amp = Some g) amps ->
  Forall (fun amp => boxContainsBox (getExposureBBox flat) (getBBox amp) = true) amps ->
  exists flat', gainLoop amps gainDict flat = Ok flat'.
Proof.
  revert flat. induction amps as [| amp amps IH]; intros flat Hgain Hfit; cbn.
  - now exists flat.
  - inversion Hgain as [| ? ? [g Hg] Hgains]; subst.
    inversion Hfit as [| ? ? Hbox Hfits]; subst.
    unfold gainDict_getitem, setImageInBox. rewrite Hg, Hbox. cbn.
    now apply IH.
Qed.

(** An amplifier whose box does not fit stops the loop. *)
Lemma gainLoop_LengthError (amp : Amplifier) (amps : list Amplifier) (flat : Exposure) (g : R) :
  gainDict !! getName amp = Some g ->
  boxContainsBox (getExposureBBox flat) (getBBox amp) = false ->
  gainLoop (amp :: amps) gainDict flat = Raise LengthError.
Proof.
  intros Hg Hbox. cbn. unfold gainDict_getitem, setImageInBox.
  now rewrite Hg, Hbox.
Qed.

(** The loop touches the image plane only. *)
Lemma gainLoop_planes (amps : list Amplifier) (flat flat' : Exposure) :
  gainLoop amps gainDict flat = Ok flat' ->
  getExposureBBox flat' = getExposureBBox flat
  /\ mask flat' = mask flat
  /\ variance flat' = variance flat
  /\ getDetector flat' = getDetector flat.
Proof.
  revert flat. induction amps as [| amp amps IH]; intros flat; cbn.
  - now intros [= <-].
  - destruct (gainDict_getitem gainDict (getName amp)) as [g |]; cbn; [| discriminate].
    unfold setImageInBox.
    destruct (boxContainsBox _ _); cbn; [| discriminate].
    intros Hloop. now destruct (IH _ Hloop) as (-> & -> & -> & ->).
Qed.

(** A pixel outside the boxes of all amplifiers keeps its value. *)
Lemma gainLoop_untouched (amps : list Amplifier) (flat flat' : Exposure) (p : Pixel) :
  gainLoop amps gainDict flat = Ok flat' ->
  Forall (fun amp => boxContainsPixel (getBBox amp) p = false) amps ->
  image flat' p = image flat p.
Proof.
  revert flat. induction amps as [| amp amps IH]; intros flat; cbn.
  - now intros [= <-].
  - destruct (gainDict_getitem gainDict (getName amp)) as [g |]; cbn; [| discriminate].
    destruct (setImageInBox flat (getBBox amp) g) as [flat1 |] eqn:Hset; cbn;
      [| discriminate].
    intros Hloop Hout. inversion Hout as [| ? ? Hamp Hamps]; subst.
    rewrite (IH _ Hloop Hamps).
    apply setImageInBox_inv in Hset as (_ & _ & Himg).
    now rewrite Himg, Hamp.
Qed.

(** A pixel takes the gain of the last amplifier whose box holds it. *)
Lemma gainLoop_last_writer (before after : list Amplifier) (amp : Amplifier)
    (flat flat' : Exposure) (p : Pixel) (g : R) :
  gainLoop (before ++ amp :: after) gainDict flat = Ok flat' ->
  gainDict !! getName amp = Some g ->
  boxContainsPixel (getBBox amp) p = true ->
  Forall (fun later => boxContainsPixel (getBBox later) p = false) after ->
  image flat' p = g.
Proof.
  revert flat. induction before as [| amp0 before IH]; intros flat; cbn.
  - intros Hloop Hg Hin Hafter.
    unfold gainDict_getitem in Hloop. rewrite Hg in Hloop. cbn in Hloop.
    destruct (setImageInBox flat (getBBox amp) g) as [flat1 |] eqn:Hset; cbn in Hloop;
      [| discriminate].
    rewrite (gainLoop_untouched _ _ _ _ Hloop Hafter).
    apply setImageInBox_inv in Hset as (_ & _ & Himg).
    now rewrite Himg, Hin.
  - destruct (gainDict_getitem gainDict (getName amp0)) as [g0 |]; cbn; [| discriminate].
    destruct (setImageInBox flat (getBBox amp0) g0) as [flat1 |]; cbn; [| discriminate].
    apply IH.
Qed.

(** The first amplifier whose box does not fit stops the loop. *)
Lemma gainLoop_unfit (amps : list Amplifier) (flat : Exposure) :
  Forall (fun amp => exists g, gainDict !! getName amp = Some g) amps ->
  Exists (fun amp => boxContainsBox (getExposureBBox flat) (getBBox amp) = false) amps ->
  gainLoop amps gainDict flat = Raise LengthError.
Proof.
  revert flat. induction amps as [| amp amps IH]; intros flat Hgain Hex.
  - inversion Hex.
  - inversion Hgain as [| ? ? [g Hg] Hgains]; subst.
    destruct (boxContainsBox (getExposureBBox flat) (getBBox amp)) eqn:Hbox.
    + cbn. unfold gainDict_getitem, setImageInBox. rewrite Hg, Hbox. cbn.
      apply IH; [exact Hgains |].
      inversion Hex as [? ? Hhead | ? ? Htail]; subst; [congruence | exact Htail].
    + now apply (gainLoop_LengthError amp amps flat g).
Qed.

End Loop.

Section MakeGainFlat.
Variables (detectorExposure : Exposure) (gainDict : gmap string R).

Let detector : list Amplifier := getDetector detectorExposure.
Let ampNames : gset string := list_to_set (List.map getName detector).
Let fits (amp : Amplifier) : Prop :=
  boxContainsBox (getExposureBBox detectorExposure) (getBBox amp) = true.

Lemma makeGainFlat_rejects :
  dom gainDict <> ampNames ->
  makeGainFlat detectorExposure gainDict = Raise AssertionError.
Proof.
  intros Hdom. unfold makeGainFlat.
  now rewrite bool_decide_eq_false_2.
Qed.

Lemma makeGainFlat_accepts :
  dom gainDict = ampNames ->
  Forall fits detector ->
  exists flat,
    makeGainFlat detectorExposure gainDict = Ok flat
    /\ (forall p, mask flat p = 0)
    /\ (forall p, variance flat p = 0%R)
    /\ (forall before amp after p,
          detector = before ++ amp :: after ->
          boxContainsPixel (getBBox amp) p = true ->
          Forall (fun later => boxContainsPixel (getBBox later) p = false) after ->
          gainDict !! getName amp = Some (image flat p)).
Proof.
  intros Hdom Hfit.
  assert (Forall (fun amp => exists g, gainDict !! getName amp = Some g) detector)
    as Hgains.
  { apply List.Forall_forall. intros amp Hamp. now apply (gain_of_amp detector). }
  destruct (gainLoop_runs gainDict detector detectorExposure Hgains Hfit)
    as [flat1 Hloop].
  unfold makeGainFlat. fold detector. fold ampNames.
  rewrite bool_decide_eq_true_2 by exact Hdom.
  rewrite Hloop. eexists. split; [reflexivity |]. cbn.
  split; [reflexivity |]. split; [reflexivity |].
  intros before amp after p Hsplit Hin Hafter.
  rewrite List.Forall_forall in Hgains.
  destruct (Hgains amp) as [g Hg].
  { rewrite Hsplit. apply in_or_app. right. now left. }
  rewrite Hg. f_equal. symmetry.
  rewrite Hsplit in Hloop.
  exact (gainLoop_last_writer gainDict before after amp _ _ p g Hloop Hg Hin Hafter).
Qed.

Lemma makeGainFlat_LengthError :
  dom gainDict = ampNames ->
  Exists (fun amp => ~ fits amp) detector ->
  makeGainFlat detectorExposure gainDict = Raise LengthError.
Proof.
  intros Hdom Hex.
  unfold makeGainFlat. fold detector. fold ampNames.
  rewrite bool_decide_eq_true_2 by exact Hdom.
  rewrite gainLoop_unfit; [reflexivity | |].
  - apply List.Forall_forall. intros amp Hamp. now apply (gain_of_amp detector).
  - eapply List.Exists_impl; [| exact Hex].
    intros amp Hamp. unfold fits in Hamp. now destruct (boxContainsBox _ _).
Qed.

(** C10, as the code has it: when the keys of the gain dictionary are
    exactly the amplifier names and every amplifier box fits in the
    exposure, makeGainFlat returns a flat whose mask and variance planes are
    zero everywhere and in which each pixel of an amplifier's box that lies
    in no later amplifier's box holds that amplifier's gain (so every pixel
    of every box, when the boxes do not overlap); a dictionary with other
    keys is refused with an assertion failure before the loop. *)
Theorem makeGainFlat_spec :
  (dom gainDict = ampNames ->
   Forall fits detector ->
   exists flat,
     makeGainFlat detectorExposure gainDict = Ok flat
     /\ (forall p, mask flat p = 0)
     /\ (forall p, variance flat p = 0%R)
     /\ (forall before amp after p,
           detector = before ++ amp :: after ->
           boxContainsPixel (getBBox amp) p = true ->
           Forall (fun later => boxContainsPixel (getBBox later) p = false) after ->
           gainDict !! getName amp = Some (image flat p)))
  /\ (dom gainDict <> ampNames ->
      makeGainFlat detectorExposure gainDict = Raise AssertionError).
Proof.
  split.
  - exact makeGainFlat_accepts.
  - exact makeGainFlat_rejects.
Qed.

End MakeGainFlat.

Lemma twoGains_dom : dom twoGains = ({[ "A"; "B" ]} : gset string).
Proof.
  unfold twoGains. rewrite dom_insert_L, dom_singleton_L. reflexivity.
Qed.

Lemma makeGainFlat_spec_witness :
  exists flat,
    makeGainFlat (twoPixelExposure [ampLeft; ampRight]) twoGains = Ok flat
    /\ (forall p, mask flat p = 0)
    /\ (forall p, variance flat p = 0%R)
    /\ (forall before amp after p,
          [ampLeft; ampRight] = before ++ amp :: after ->
          boxContainsPixel (getBBox amp) p = true ->
          Forall (fun later => boxContainsPixel (getBBox later) p = false) after ->
          twoGains !! getName amp = Some (image flat p)).
Proof.
  refine (proj1 (makeGainFlat_spec (twoPixelExposure [ampLeft; ampRight]) twoGains) _ _).
  - rewrite twoGains_dom. cbn. set_solver.
  - repeat constructor.
Defined.

(** C10 as stated fails when two amplifier boxes overlap: amplifier A
    covers both pixels with gain 1, amplifier B the right pixel with gain 2;
    the keys match the names, and the right pixel, inside A's box, holds 2. *)
Lemma makeGainFlat_overlapping_amps :
  dom twoGains = list_to_set (List.map getName [ampWide; ampRight])
  /\ exists flat,
      makeGainFlat (twoPixelExposure [ampWide; ampRight]) twoGains = Ok flat
      /\ boxContainsPixel (getBBox ampWide) (1, 0) = true
      /\ twoGains !! getName ampWide = Some 1%R
      /\ image flat (1, 0) <> 1%R.
Proof.
  assert (dom twoGains = list_to_set (List.map getName [ampWide; ampRight])) as Hdom.
  { rewrite twoGains_dom. cbn. set_solver. }
  split; [exact Hdom |].
  destruct (makeGainFlat_accepts (twoPixelExposure [ampWide; ampRight]) twoGains Hdom)
    as (flat & Hflat & _ & _ & Hpix); [repeat constructor |].
  exists flat. split; [exact Hflat |]. split; [reflexivity |]. split; [reflexivity |].
  specialize (Hpix [ampWide] ampRight [] (1, 0) eq_refl eq_refl (List.Forall_nil _)).
  change (twoGains !! getName ampRight) with (Some 2%R) in Hpix.
  injection Hpix as Hpix. rewrite <- Hpix. lra.
Qed.

End GainFlatFacts.

(** * Further properties *)

(** ** The spectral bounding-box calculator *)

Module BBoxMore.

Import BBox BBoxFacts.
Local Open Scope Z_scope.

Lemma calcSpectrumBBox_Ok_inv config exp centroid aperture order box :
  calcSpectrumBBox config exp centroid aperture order = Ok box ->
  let b := clipSpectrumBBox exp (rawSpectrumBBox config centroid aperture order) in
  box = toBox2I b /\ xStart b < xEnd b /\ yStart b < yEnd b.
Proof.
  intros Hcalc b. unfold calcSpectrumBBox in Hcalc. fold b in Hcalc.
  destruct (boxIsProper b) eqn:Hb; [| discriminate].
  injection Hcalc as <-. apply boxIsProper_iff in Hb.
  split; [reflexivity | lia].
Qed.

Lemma half_of_small (aperture : Z) : aperture < 2 -> aperture / 2 <= 0.
Proof.
  intros Ha. pose proof (Z.div_mod aperture 2 ltac:(lia)) as Hdm.
  pose proof (Z.mod_pos_bound aperture 2 ltac:(lia)). lia.
Qed.

(** X1: a box that the calculator returns lies inside the image and inside
    the unclipped box, and spans at least two pixels each way. *)
Theorem calcSpectrumBBox_inside_image config exp centroid aperture order box :
  calcSpectrumBBox config exp centroid aperture order = Ok box ->
  let raw := rawSpectrumBBox config centroid aperture order in
  (0 <= getMinX box /\ getMinX box < getMaxX box /\ getMaxX box <= getWidth exp - 1)
  /\ (0 <= getMinY box /\ getMinY box < getMaxY box /\ getMaxY box <= getHeight exp - 1)
  /\ (xStart raw <= getMinX box /\ getMaxX box <= xEnd raw)
  /\ (yStart raw <= getMinY box /\ getMaxY box <= yEnd raw).
Proof.
  intros Hcalc raw.
  apply calcSpectrumBBox_Ok_inv in Hcalc as (-> & Hx & Hy).
  fold raw in Hx, Hy |- *.
  unfold toBox2I, clipSpectrumBBox in *; cbn in *. lia.
Qed.

Lemma calcSpectrumBBox_inside_image_witness :
  let box := {| getMinX := 387; getMinY := 612; getMaxX := 636; getMaxY := 3999 |} in
  let raw := rawSpectrumBBox defaultConfig (512, 512) 250 "+1" in
  (0 <= getMinX box /\ getMinX box < getMaxX box /\ getMaxX box <= 1024 - 1)
  /\ (0 <= getMinY box /\ getMinY box < getMaxY box /\ getMaxY box <= 4000 - 1)
  /\ (xStart raw <= getMinX box /\ getMaxX box <= xEnd raw)
  /\ (yStart raw <= getMinY box /\ getMaxY box <= yEnd raw).
Proof.
  apply (calcSpectrumBBox_inside_image defaultConfig
           {| getWidth := 1024; getHeight := 4000 |} (512, 512) 250 "+1").
  reflexivity.
Defined.

(** X2: with an aperture below 2 or an extraction length below 2 no box is
    ever returned: the assertion fails for every centroid, image and order. *)
Theorem calcSpectrumBBox_too_small config exp centroid aperture order :
  aperture < 2 \/ spectrumLengthPixels config < 2 ->
  calcSpectrumBBox config exp centroid aperture order = Raise AssertionError.
Proof.
  intros Hsmall. apply calcSpectrumBBox_improper.
  destruct (boxIsProper _) eqn:Hb; [| reflexivity].
  apply boxIsProper_iff in Hb. exfalso.
  unfold clipSpectrumBBox, rawSpectrumBBox in Hb; cbn in Hb.
  destruct Hsmall as [Ha | He].
  - apply half_of_small in Ha. lia.
  - destruct (String.eqb order "-1"); lia.
Qed.

Lemma calcSpectrumBBox_too_small_witness :
  calcSpectrumBBox defaultConfig {| getWidth := 1024; getHeight := 4000 |}
    (512, 512) 1 "+1" = Raise AssertionError.
Proof.
  apply calcSpectrumBBox_too_small. left. lia.
Defined.

(** X3: with a non-negative offset the boxes of the two orders never share
    a row: the box of order '-1' ends below the row where the box of order
    '+1' starts, and both span the same columns. *)
Theorem calcSpectrumBBox_orders_apart config exp centroid aperture plus minus :
  0 <= offsetFromMainStar config ->
  calcSpectrumBBox config exp centroid aperture "+1" = Ok plus ->
  calcSpectrumBBox config exp centroid aperture "-1" = Ok minus ->
  getMaxY minus < getMinY plus
  /\ getMaxY minus < snd centroid
  /\ getMinX minus = getMinX plus /\ getMaxX minus = getMaxX plus.
Proof.
  intros Hoff Hplus Hminus.
  apply calcSpectrumBBox_Ok_inv in Hplus as (-> & _ & Hp).
  apply calcSpectrumBBox_Ok_inv in Hminus as (-> & _ & Hm).
  unfold toBox2I, clipSpectrumBBox, rawSpectrumBBox in *; cbn in *. lia.
Qed.

Lemma calcSpectrumBBox_orders_apart_witness :
  getMaxY {| getMinX := 387; getMinY := 900; getMaxX := 636; getMaxY := 1899 |}
  < getMinY {| getMinX := 387; getMinY := 2100; getMaxX := 636; getMaxY := 3099 |}
  /\ getMaxY {| getMinX := 387; getMinY := 900; getMaxX := 636; getMaxY := 1899 |}
     < snd (512, 2000)
  /\ getMinX {| getMinX := 387; getMinY := 900; getMaxX := 636; getMaxY := 1899 |}
     = getMinX {| getMinX := 387; getMinY := 2100; getMaxX := 636; getMaxY := 3099 |}
  /\ getMaxX {| getMinX := 387; getMinY := 900; getMaxX := 636; getMaxY := 1899 |}
     = getMaxX {| getMinX := 387; getMinY := 2100; getMaxX := 636; getMaxY := 3099 |}.
Proof.
  apply (calcSpectrumBBox_orders_apart
           {| spectrumLengthPixels := 1000; offsetFromMainStar := 100 |}
           {| getWidth := 1024; getHeight := 4000 |} (512, 2000) 250).
  - cbn. lia.
  - reflexivity.
  - reflexivity.
Defined.

(** Clipping leaves a box inside the image as it is. *)
Lemma clipSpectrumBBox_inside (exp : Exposure) (b : RawBox) :
  0 <= xStart b -> xEnd b <= getWidth exp - 1 ->
  0 <= yStart b -> yEnd b <= getHeight exp - 1 ->
  clipSpectrumBBox exp b = b.
Proof.
  destruct b as [xs xe ys ye]; unfold clipSpectrumBBox; cbn.
  intros. f_equal; lia.
Qed.

(** X4: when the unclipped box already lies inside the image and spans at
    least two pixels each way, clipping changes nothing: the box returned
    has (xStart, yStart) of the unclipped box as its minimum corner and
    (xEnd, yEnd) of the unclipped box as its maximum corner. *)
Theorem calcSpectrumBBox_fits_unchanged config exp centroid aperture order :
  let raw := rawSpectrumBBox config centroid aperture order in
  0 <= xStart raw -> xStart raw < xEnd raw -> xEnd raw <= getWidth exp - 1 ->
  0 <= yStart raw -> yStart raw < yEnd raw -> yEnd raw <= getHeight exp - 1 ->
  exists box : Box2I,
    calcSpectrumBBox config exp centroid aperture order = Ok box
    /\ getMinX box = xStart raw /\ getMinY box = yStart raw
    /\ getMaxX box = xEnd raw /\ getMaxY box = yEnd raw.
Proof.
  intros raw Hx0 Hx Hx1 Hy0 Hy Hy1.
  assert (clipSpectrumBBox exp raw = raw) as Hclip by now apply clipSpectrumBBox_inside.
  exists (toBox2I raw). split; [| now cbn].
  rewrite calcSpectrumBBox_proper; fold raw; rewrite Hclip; [reflexivity |].
  apply boxIsProper_iff. lia.
Qed.

Lemma calcSpectrumBBox_fits_unchanged_witness :
  exists box : Box2I,
    calcSpectrumBBox {| spectrumLengthPixels := 1000; offsetFromMainStar := 100 |}
      {| getWidth := 1024; getHeight := 4000 |} (512, 2000) 250 "-1" = Ok box
    /\ getMinX box = 387 /\ getMinY box = 900
    /\ getMaxX box = 636 /\ getMaxY box = 1899.
Proof.
  apply (calcSpectrumBBox_fits_unchanged
           {| spectrumLengthPixels := 1000; offsetFromMainStar := 100 |}
           {| getWidth := 1024; getHeight := 4000 |} (512, 2000) 250 "-1");
    vm_compute; congruence.
Defined.

End BBoxMore.

(** ** The selectors without the distinctness assumption *)

Module SelectorMore.

Import Py PyFacts Selector SelectorFacts Detect.
Local Open Scope R_scope.

(** *** Insertion and lookup in a float-keyed dictionary *)

Section Dict.
Context {V : Type}.
Implicit Types (d : dict V) (k : R) (v : V).

Lemma dict_getitem_setitem k v d k' :
  dict_getitem (dict_setitem k v d) k'
  = if Req_dec_T k k' then Ok v else dict_getitem d k'.
Proof.
  induction d as [| [k0 v0] d IH]; cbn.
  - destruct (Req_dec_T k k'); reflexivity.
  - destruct (Req_dec_T k0 k) as [-> | Hne]; cbn.
    + destruct (Req_dec_T k k'); reflexivity.
    + destruct (Req_dec_T k0 k') as [-> | Hne'].
      * destruct (Req_dec_T k k'); [congruence | reflexivity].
      * exact IH.
Qed.

Lemma dict_keys_setitem k v d k' :
  In k' (dict_keys (dict_setitem k v d)) <-> k' = k \/ In k' (dict_keys d).
Proof.
  induction d as [| [k0 v0] d IH]; cbn.
  - intuition.
  - destruct (Req_dec_T k0 k) as [-> | Hne]; cbn.
    + intuition.
    + rewrite IH. intuition.
Qed.

End Dict.

Section Filed.
Context {Footprint : Type}.
Variable keyOf : Footprint -> R.

Lemma filed_cons (fp : Footprint) (l : list Footprint) (d : dict Footprint) :
  filed keyOf (fp :: l) d = filed keyOf l (dict_setitem (keyOf fp) fp d).
Proof. reflexivity. Qed.

Lemma filed_app (l1 l2 : list Footprint) (d : dict Footprint) :
  filed keyOf (l1 ++ l2) d = filed keyOf l2 (filed keyOf l1 d).
Proof. apply fold_left_app. Qed.

Lemma filed_keys (l : list Footprint) (d : dict Footprint) (k : R) :
  In k (dict_keys (filed keyOf l d)) <-> In k (dict_keys d) \/ In k (List.map keyOf l).
Proof.
  revert d. induction l as [| fp l IH]; intros d.
  - cbn. intuition.
  - rewrite filed_cons, IH, dict_keys_setitem. cbn. intuition.
Qed.

(** Footprints filed under other keys do not disturb a lookup. *)
Lemma filed_getitem_other (l : list Footprint) (d : dict Footprint) (k : R) :
  (forall fp, In fp l -> keyOf fp <> k) ->
  dict_getitem (filed keyOf l d) k = dict_getitem d k.
Proof.
  revert d. induction l as [| fp l IH]; intros d Hl; [reflexivity |].
  rewrite filed_cons, IH by (intros fp' Hfp'; apply Hl; now right).
  rewrite dict_getitem_setitem.
  destruct (Req_dec_T (keyOf fp) k) as [Heq | _]; [| reflexivity].
  exfalso. apply (Hl fp); [now left | exact Heq].
Qed.

(** A lookup finds the last footprint filed under the key. *)
Lemma filed_getitem_last (before after : list Footprint) (fp : Footprint)
    (d : dict Footprint) :
  (forall fp', In fp' after -> keyOf fp' <> keyOf fp) ->
  dict_getitem (filed keyOf (before ++ fp :: after) d) (keyOf fp) = Ok fp.
Proof.
  intros Hafter. rewrite filed_app, filed_cons.
  rewrite filed_getitem_other by exact Hafter.
  rewrite dict_getitem_setitem.
  now destruct (Req_dec_T (keyOf fp) (keyOf fp)).
Qed.

(** Every key that occurs has a last footprint. *)
Lemma last_with_key (l : list Footprint) (k : R) :
  In k (List.map keyOf l) ->
  exists before fp after,
    l = before ++ fp :: after /\ keyOf fp = k
    /\ forall fp', In fp' after -> keyOf fp' <> k.
Proof.
  induction l as [| fp0 l IH]; cbn; [contradiction |].
  intros Hin.
  destruct (in_dec Req_dec_T k (List.map keyOf l)) as [Hlater | Hnot].
  - destruct (IH Hlater) as (before & fp & after & -> & Hk & Hafter).
    exists (fp0 :: before), fp, after. auto.
  - destruct Hin as [Hk | Hin]; [| contradiction].
    exists [], fp0, l. repeat split; [exact Hk |].
    intros fp' Hfp' Heq. apply Hnot. rewrite <- Heq. now apply in_map.
Qed.

End Filed.

Section Select.
Context `{Detection}.
Variable parentExp : Exposure.

(** With every ellipticity defined, a loop files exactly the footprints it
    keeps, in order. *)
Lemma selectLoop_filed (keep : R -> R -> bool) (key : R -> R -> R)
    (fps : list Footprint) (d : dict Footprint) :
  Forall (fun fp => hasEllipticity (getShape fp)) fps ->
  selectLoop keep key fps parentExp d
  = Ok (filed (fun fp => key (ellipticityOf fp) (footprintFlux fp parentExp))
          (List.filter (fun fp => keep (ellipticityOf fp) (footprintFlux fp parentExp)) fps)
          d).
Proof.
  revert d. induction fps as [| fp fps IH]; intros d Hshapes; [reflexivity |].
  inversion Hshapes as [| ? ? Hfp Hrest]; subst.
  cbn [selectLoop List.filter].
  rewrite (getEllipticity_ok _ Hfp), result_bind_Ok.
  fold (ellipticityOf fp).
  destruct (keep _ _); [rewrite filed_cons |]; now apply IH.
Qed.

Lemma getRoundestObject_filed (fluxCut : R) (fps : list Footprint) :
  Forall (fun fp => hasEllipticity (getShape fp)) fps ->
  getRoundestObject fps parentExp fluxCut
  = (k ← list_getitem
          (sorted (dict_keys (filed ellipticityOf (brighterThan fluxCut parentExp fps) []))) 0;
     dict_getitem (filed ellipticityOf (brighterThan fluxCut parentExp fps) []) k).
Proof.
  intros Hshapes. unfold getRoundestObject.
  rewrite roundestLoop_select, selectLoop_filed by exact Hshapes.
  now rewrite result_bind_Ok.
Qed.

Lemma getBrightestObject_filed (roundnessCut : R) (fps : list Footprint) :
  Forall (fun fp => hasEllipticity (getShape fp)) fps ->
  getBrightestObject fps parentExp roundnessCut
  = (k ← list_getitem
          (sorted (dict_keys (filed (fun fp => footprintFlux fp parentExp)
                                (rounderThan roundnessCut fps) []))) (-1);
     dict_getitem (filed (fun fp => footprintFlux fp parentExp)
                     (rounderThan roundnessCut fps) []) k).
Proof.
  intros Hshapes. unfold getBrightestObject.
  rewrite brightestLoop_select, selectLoop_filed by exact Hshapes.
  now rewrite result_bind_Ok.
Qed.

(** X5: when every candidate has a defined ellipticity and none passes
    the cut (in particular when there is no candidate), both selectors fail
    with IndexError: there is no "nothing found" result. *)
Theorem selectors_no_survivor (cut : R) (fps : list Footprint) :
  Forall (fun fp => hasEllipticity (getShape fp)) fps ->
  (brighterThan cut parentExp fps = [] ->
   getRoundestObject fps parentExp cut = Raise IndexError)
  /\ (rounderThan cut fps = [] ->
      getBrightestObject fps parentExp cut = Raise IndexError).
Proof.
  intros Hshapes. split; intros Hnone.
  - rewrite getRoundestObject_filed, Hnone by exact Hshapes. reflexivity.
  - rewrite getBrightestObject_filed, Hnone by exact Hshapes. reflexivity.
Qed.

(** X6: in Roundest-mode, when every candidate has a defined ellipticity
    and at least one passes the flux cut, the selector returns the last
    survivor, in detection order, among those of minimum ellipticity: on a
    tie the later footprint replaces the earlier one. *)
Theorem getRoundestObject_last_of_ties (fluxCut : R) (fps : list Footprint) :
  Forall (fun fp => hasEllipticity (getShape fp)) fps ->
  brighterThan fluxCut parentExp fps <> [] ->
  exists before best after,
    brighterThan fluxCut parentExp fps = before ++ best :: after
    /\ getRoundestObject fps parentExp fluxCut = Ok best
    /\ (forall fp, In fp (brighterThan fluxCut parentExp fps) ->
        ellipticityOf best <= ellipticityOf fp)
    /\ (forall fp, In fp after -> ellipticityOf fp <> ellipticityOf best).
Proof.
  intros Hshapes Hsome.
  set (S := brighterThan fluxCut parentExp fps) in *.
  set (d := filed ellipticityOf S []).
  assert (forall k, In k (dict_keys d) <-> In k (List.map ellipticityOf S)) as Hkeys.
  { intros k. unfold d. rewrite filed_keys. cbn. tauto. }
  destruct (sorted_first_min (dict_keys d)) as (m & Hfirst & Hm & Hmin).
  { destruct S as [| fp S']; [contradiction |].
    intros E. assert (In (ellipticityOf fp) (dict_keys d)) as Hin
      by (apply Hkeys; now left).
    rewrite E in Hin. contradiction. }
  apply Hkeys in Hm.
  destruct (last_with_key ellipticityOf S m Hm) as (before & best & after & HS & <- & Hlast).
  exists before, best, after.
  split; [exact HS |]. split; [| split; [| exact Hlast]].
  - rewrite getRoundestObject_filed by exact Hshapes.
    fold S. fold d. rewrite Hfirst, result_bind_Ok.
    unfold d. rewrite HS. now apply filed_getitem_last.
  - intros fp Hfp. apply Hmin, Hkeys. now apply in_map.
Qed.

(** X7: in Brightest-mode, under the same conditions on the ellipticity
    cut, the selector returns the last survivor among those of maximum
    flux. *)
Theorem getBrightestObject_last_of_ties (roundnessCut : R) (fps : list Footprint) :
  Forall (fun fp => hasEllipticity (getShape fp)) fps ->
  rounderThan roundnessCut fps <> [] ->
  exists before best after,
    rounderThan roundnessCut fps = before ++ best :: after
    /\ getBrightestObject fps parentExp roundnessCut = Ok best
    /\ (forall fp, In fp (rounderThan roundnessCut fps) ->
        footprintFlux fp parentExp <= footprintFlux best parentExp)
    /\ (forall fp, In fp after ->
        footprintFlux fp parentExp <> footprintFlux best parentExp).
Proof.
  intros Hshapes Hsome.
  set (S := rounderThan roundnessCut fps) in *.
  set (flux := fun fp : Footprint => footprintFlux fp parentExp).
  set (d := filed flux S []).
  assert (forall k, In k (dict_keys d) <-> In k (List.map flux S)) as Hkeys.
  { intros k. unfold d. rewrite filed_keys. cbn. tauto. }
  destruct (sorted_last_max (dict_keys d)) as (m & Hlast & Hm & Hmax).
  { destruct S as [| fp S']; [contradiction |].
    intros E. assert (In (flux fp) (dict_keys d)) as Hin
      by (apply Hkeys; now left).
    rewrite E in Hin. contradiction. }
  apply Hkeys in Hm.
  destruct (last_with_key flux S m Hm) as (before & best & after & HS & <- & Hafter).
  exists before, best, after.
  split; [exact HS |]. split; [| split; [| exact Hafter]].
  - rewrite getBrightestObject_filed by exact Hshapes.
    fold S. fold flux. fold d. rewrite Hlast, result_bind_Ok.
    unfold d. rewrite HS. now apply (filed_getitem_last flux).
  - intros fp Hfp. apply Hmax, Hkeys. now apply (in_map flux).
Qed.

End Select.

Lemma listDetection_shapes (fps : list (@Footprint listDetection)) :
  Forall (fun fp => In fp [roundStar; streak; faintBlob]) fps ->
  Forall (fun fp => hasEllipticity (@getShape listDetection fp)) fps.
Proof.
  apply List.Forall_impl. intros fp [<- | [<- | [<- | []]]];
    unfold hasEllipticity; cbn; lra.
Qed.

Lemma selectors_no_survivor_witness :
  @getRoundestObject listDetection [faintBlob] tt 5 = Raise IndexError.
Proof.
  refine (proj1 (@selectors_no_survivor listDetection tt 5 [faintBlob] _) _).
  - apply listDetection_shapes. repeat constructor; cbn; tauto.
  - unfold brighterThan; cbn [List.filter].
    now rewrite flux_faintBlob, (proj2 (Rltb_false 5 1)) by lra.
Defined.

Lemma getRoundestObject_last_of_ties_witness :
  exists before best after,
    @brighterThan listDetection (1 / 2) tt [roundStar; faintBlob]
    = before ++ best :: after
    /\ @getRoundestObject listDetection [roundStar; faintBlob] tt (1 / 2) = Ok best
    /\ (forall fp, In fp (@brighterThan listDetection (1 / 2) tt [roundStar; faintBlob]) ->
        @ellipticityOf listDetection best <= @ellipticityOf listDetection fp)
    /\ (forall fp, In fp after ->
        @ellipticityOf listDetection fp <> @ellipticityOf listDetection best).
Proof.
  apply (@getRoundestObject_last_of_ties listDetection tt (1 / 2) [roundStar; faintBlob]).
  - apply listDetection_shapes. repeat constructor; cbn; tauto.
  - unfold brighterThan; cbn [List.filter].
    rewrite flux_roundStar, (proj2 (Rltb_true (1 / 2) 10)) by lra. discriminate.
Defined.

Lemma getBrightestObject_last_of_ties_witness :
  exists before best after,
    @rounderThan listDetection 1 [roundStar; streak] = before ++ best :: after
    /\ @getBrightestObject listDetection [roundStar; streak] tt 1 = Ok best
    /\ (forall fp, In fp (@rounderThan listDetection 1 [roundStar; streak]) ->
        @footprintFlux listDetection fp tt <= @footprintFlux listDetection best tt)
    /\ (forall fp, In fp after ->
        @footprintFlux listDetection fp tt <> @footprintFlux listDetection best tt).
Proof.
  apply (@getBrightestObject_last_of_ties listDetection tt 1 [roundStar; streak]).
  - apply listDetection_shapes. repeat constructor; cbn; tauto.
  - unfold rounderThan; cbn [List.filter].
    rewrite ellipticityOf_roundStar, (proj2 (Rltb_true 0 1)) by lra. discriminate.
Defined.

End SelectorMore.

(** ** Detection and the choice of the main source *)

Module DetectFacts.

Import Py PyFacts Selector SelectorFacts Detect.
Local Open Scope R_scope.

Section Find.
Context `{Framework}.

(** X8: a call of findObjects with an explicit positive grow never returns
    footprints: the isotropy flag is only assigned when grow is replaced by
    the configured value, so once detection has succeeded the call fails
    with UnboundLocalError. *)
Theorem findObjects_explicit_grow (config : Config) (exp : Exposure)
    (nSigma : option Z) (grow : Z) :
  (0 < grow)%Z ->
  (forall fps, findObjects config exp nSigma grow <> Ok fps)
  /\ ((forall n, exists found, detectFootprints exp n (mainStarNpixMin config) = Ok found) ->
      findObjects config exp nSigma grow = Raise (OtherError "UnboundLocalError")).
Proof.
  intros Hgrow. unfold findObjects.
  destruct (grow =? 0)%Z eqn:Hz; [apply Z.eqb_eq in Hz; lia |].
  apply Z.ltb_lt in Hgrow. rewrite Hgrow.
  split.
  - intros fps. now destruct (detectFootprints _ _ _).
  - intros Hdetect.
    match goal with
    | |- context [detectFootprints exp ?n ?m] => destruct (Hdetect n) as [found ->]
    end.
    reflexivity.
Qed.

(** X9: a centroid that findMainSource returns is the centroid of one of
    the footprints that findObjects found, and that footprint passed the
    configured cut: flux above mainStarFluxCut in ROUNDEST mode, ellipticity
    below mainStarRoundnessCut in BRIGHTEST mode. *)
Theorem findMainSource_centroid_of_survivor (config : Config) (exp : Exposure)
    (centroid : Point2D) :
  findMainSource config exp = Ok centroid ->
  exists fpSet source,
    findObjects config exp None 0 = Ok fpSet
    /\ In source fpSet
    /\ centroid = getCentroid source
    /\ ((mainSourceFindingMethod config = "ROUNDEST"
         /\ mainStarFluxCut config < footprintFlux source exp)
        \/ (mainSourceFindingMethod config = "BRIGHTEST"
            /\ ellipticityOf source < mainStarRoundnessCut config)).
Proof.
  unfold findMainSource.
  destruct (findObjects config exp None 0) as [fpSet | e]; [| discriminate].
  rewrite result_bind_Ok.
  destruct (String.eqb (mainSourceFindingMethod config) "ROUNDEST") eqn:Hr.
  - destruct (getRoundestObject fpSet exp (mainStarFluxCut config)) as [source |] eqn:Hsel;
      [| discriminate].
    intros [= <-]. apply getRoundestObject_survivor in Hsel as [Hin Hflux].
    apply String.eqb_eq in Hr.
    exists fpSet, source.
    split; [reflexivity |]. split; [exact Hin |]. split; [reflexivity |].
    left. now split.
  - destruct (String.eqb (mainSourceFindingMethod config) "BRIGHTEST") eqn:Hb;
      [| discriminate].
    destruct (getBrightestObject fpSet exp (mainStarRoundnessCut config)) as [source |] eqn:Hsel;
      [| discriminate].
    intros [= <-]. apply getBrightestObject_survivor in Hsel as (Hin & _ & He).
    apply String.eqb_eq in Hb.
    exists fpSet, source.
    split; [reflexivity |]. split; [exact Hin |]. split; [reflexivity |].
    right. now split.
Qed.

End Find.

Lemma findObjects_explicit_grow_witness :
  @findObjects (listFramework [roundStar]) (exampleConfig "ROUNDEST") tt None 3
  = Raise (OtherError "UnboundLocalError").
Proof.
  refine (proj2 (@findObjects_explicit_grow (listFramework [roundStar])
                   (exampleConfig "ROUNDEST") tt None 3 _) _).
  - reflexivity.
  - intros n. now eexists.
Defined.

(** The round star is found when the faint blob is below the flux cut. *)
Lemma getRoundestObject_roundStar :
  @getRoundestObject listDetection [roundStar; faintBlob] tt 5 = Ok roundStar.
Proof.
  unfold getRoundestObject.
  rewrite !roundestLoop_cons by (unfold hasEllipticity; cbn; lra).
  rewrite flux_roundStar, flux_faintBlob.
  rewrite (proj2 (Rltb_true 5 10)), (proj2 (Rltb_false 5 1)) by lra.
  rewrite ellipticityOf_roundStar.
  cbn [roundestLoop dict_setitem].
  rewrite result_bind_Ok. cbn [dict_keys List.map fst sorted List.fold_right insort].
  rewrite list_getitem_first, result_bind_Ok. cbn [dict_getitem].
  now destruct (Req_dec_T 0 0).
Qed.

Lemma findMainSource_roundStar :
  @findMainSource (listFramework [roundStar; faintBlob]) (exampleConfig "ROUNDEST") tt
  = Ok 10.
Proof.
  change (@getRoundestObject listDetection [roundStar; faintBlob] tt 5
          ≫= (fun source => Ok (List.hd 0 (snd source))) = Ok 10).
  now rewrite getRoundestObject_roundStar.
Qed.

Lemma findMainSource_centroid_of_survivor_witness :
  exists fpSet source,
    @findObjects (listFramework [roundStar; faintBlob]) (exampleConfig "ROUNDEST") tt None 0
    = Ok fpSet
    /\ In source fpSet
    /\ 10 = @getCentroid (listFramework [roundStar; faintBlob]) source
    /\ ((mainSourceFindingMethod (exampleConfig "ROUNDEST") = "ROUNDEST"
         /\ mainStarFluxCut (exampleConfig "ROUNDEST")
            < @footprintFlux listDetection source tt)
        \/ (mainSourceFindingMethod (exampleConfig "ROUNDEST") = "BRIGHTEST"
            /\ @ellipticityOf listDetection source
               < mainStarRoundnessCut (exampleConfig "ROUNDEST"))).
Proof.
  apply (@findMainSource_centroid_of_survivor (listFramework [roundStar; faintBlob])
           (exampleConfig "ROUNDEST") tt 10).
  exact findMainSource_roundStar.
Defined.

End DetectFacts.

(** ** The target locator, case by case *)

Module LocatorMore.

Import Py Effects EffectsFacts Locator LocatorFacts.
Local Open Scope string_scope.

Section Locate.
Context `{Services}.
Variables (exp : Exposure) (target : string) (doMotionCorrection : bool).

(** X10: when the Vizier lookup succeeds, the locator projects Vizier's
    position, logs where it came from, never asks Simbad and never warns
    about the motion correction. *)
Theorem getTargetCentroidFromWcs_from_vizier (loc : SpherePoint) :
  outcome (vizierLocationForTarget exp target doMotionCorrection) = Ok loc ->
  getTargetCentroidFromWcs exp target doMotionCorrection
  = mkIO [VizierQuery target;
          LogInfo ("Target location for " ++ target ++ " retrieved from Vizier")]
         (pixCoord ← skyToPixel exp loc; Ok (Some pixCoord)).
Proof.
  intros Hv. unfold getTargetCentroidFromWcs.
  rewrite (lookupTarget_vizier_found exp target doMotionCorrection loc Hv), bind_Ok.
  change (String.eqb "vizier" "simbad") with false.
  rewrite andb_false_r.
  destruct (skyToPixel exp loc); reflexivity.
Qed.

(** X11: when the Vizier lookup fails with a ValueError and Simbad has
    exactly one entry, the locator projects Simbad's position, and it warns
    that no motion correction was applied exactly when that correction was
    asked for. *)
Theorem getTargetCentroidFromWcs_from_simbad (args : list string)
    (row : SimbadRow) (coord : SkyCoord) :
  outcome (vizierLocationForTarget exp target doMotionCorrection)
  = Raise (ValueError args) ->
  Simbad_query_object target = Ok (Some [row]) ->
  simbadCoord row = Ok coord ->
  getTargetCentroidFromWcs exp target doMotionCorrection
  = mkIO ([VizierQuery target;
           LogWarn ("Target " ++ target
                      ++ " not found in Vizier, failing over to try Simbad");
           SimbadQuery target;
           LogInfo ("Target location for " ++ target ++ " retrieved from Simbad")]
          ++ (if doMotionCorrection
              then [LogWarn ("Failed to apply motion correction because " ++ target
                               ++ " was only found in Simbad, not Vizier/Hipparcos")]
              else []))
         (pixCoord ← skyToPixel exp (toSpherePoint coord); Ok (Some pixCoord)).
Proof.
  intros Hv Hq Hc.
  unfold getTargetCentroidFromWcs, lookupTarget.
  pose proof (vizierLocationForTarget_trace exp target doMotionCorrection) as Ht.
  destruct (vizierLocationForTarget exp target doMotionCorrection) as [vt vo].
  cbn in Hv, Ht. subst vt vo.
  rewrite bind_Raise, try_except_caught by reflexivity.
  unfold simbadLocationForTarget. rewrite Hq. cbn. rewrite Hc. cbn.
  rewrite andb_true_r.
  destruct doMotionCorrection; destruct (skyToPixel exp (toSpherePoint coord)); reflexivity.
Qed.

(** X12: a Vizier failure that is not a ValueError is not caught: the
    exception leaves the locator as it is and Simbad is not asked. *)
Theorem getTargetCentroidFromWcs_vizier_crash (e : PyExc) :
  outcome (vizierLocationForTarget exp target doMotionCorrection) = Raise e ->
  isValueError e = false ->
  getTargetCentroidFromWcs exp target doMotionCorrection
  = mkIO [VizierQuery target] (Raise e).
Proof.
  intros Hv He. unfold getTargetCentroidFromWcs.
  now rewrite (lookupTarget_vizier_crashed exp target doMotionCorrection e Hv He), bind_Raise.
Qed.

(** X13: the locator returns None only after it has asked both
    catalogues. *)
Theorem getTargetCentroidFromWcs_None_asked_both :
  outcome (getTargetCentroidFromWcs exp target doMotionCorrection) = Ok None ->
  In (VizierQuery target) (trace (getTargetCentroidFromWcs exp target doMotionCorrection))
  /\ In (SimbadQuery target) (trace (getTargetCentroidFromWcs exp target doMotionCorrection)).
Proof.
  destruct (outcome (vizierLocationForTarget exp target doMotionCorrection))
    as [loc | e] eqn:Hv.
  - unfold getTargetCentroidFromWcs.
    rewrite (lookupTarget_vizier_found exp target doMotionCorrection loc Hv), bind_Ok.
    change (String.eqb "vizier" "simbad") with false.
    rewrite andb_false_r.
    destruct (skyToPixel exp loc); discriminate.
  - destruct (isValueError e) eqn:He.
    + intros _. unfold getTargetCentroidFromWcs, lookupTarget.
      pose proof (vizierLocationForTarget_trace exp target doMotionCorrection) as Ht.
      pose proof (simbadLocationForTarget_trace target) as Hst.
      destruct (vizierLocationForTarget exp target doMotionCorrection) as [vt vo].
      destruct (simbadLocationForTarget target) as [st so].
      cbn in Hv, Ht, Hst. subst vt vo st.
      rewrite bind_Raise, try_except_caught by exact He.
      split.
      * destruct (try_except _ _ _) as [ht [[[l rf] |] | e']]; cbn;
          try (destruct (_ && _); cbn); now left.
      * destruct so as [loc | e']; cbn.
        -- destruct doMotionCorrection; cbn;
             destruct (skyToPixel exp loc); cbn; intuition.
        -- destruct (isValueError e'); cbn; [| intuition].
           destruct (list_getitem (exc_args e') 0); cbn; intuition.
    + unfold getTargetCentroidFromWcs.
      rewrite (lookupTarget_vizier_crashed exp target doMotionCorrection e Hv He), bind_Raise.
      discriminate.
Qed.

End Locate.

Import Catalogues.

Lemma getTargetCentroidFromWcs_from_vizier_witness :
  @getTargetCentroidFromWcs (stubCatalogues (Ok tt) (Ok tt) (Ok None)) tt "HD 55852" true
  = mkIO [VizierQuery "HD 55852";
          LogInfo ("Target location for " ++ "HD 55852" ++ " retrieved from Vizier")]
         (pixCoord ← @skyToPixel (stubCatalogues (Ok tt) (Ok tt) (Ok None)) tt tt;
          Ok (Some pixCoord)).
Proof.
  apply (@getTargetCentroidFromWcs_from_vizier
           (stubCatalogues (Ok tt) (Ok tt) (Ok None)) tt "HD 55852" true tt).
  reflexivity.
Defined.

Lemma getTargetCentroidFromWcs_from_simbad_witness :
  outcome (@getTargetCentroidFromWcs
             (stubCatalogues (Ok tt) (Raise TypeError) (Ok (Some [tt])))
             tt "HD 55852" true)
  = Ok (Some (100%Z, 200%Z)).
Proof.
  rewrite (@getTargetCentroidFromWcs_from_simbad
             (stubCatalogues (Ok tt) (Raise TypeError) (Ok (Some [tt])))
             tt "HD 55852" true [] tt tt); reflexivity.
Defined.

Lemma getTargetCentroidFromWcs_vizier_crash_witness :
  @getTargetCentroidFromWcs
    (stubCatalogues (Raise (OtherError "ConnectionError")) (Ok tt) (Ok None))
    tt "HD 55852" true
  = mkIO [VizierQuery "HD 55852"] (Raise (OtherError "ConnectionError")).
Proof.
  apply (@getTargetCentroidFromWcs_vizier_crash
           (stubCatalogues (Raise (OtherError "ConnectionError")) (Ok tt) (Ok None))
           tt "HD 55852" true); reflexivity.
Defined.

Lemma getTargetCentroidFromWcs_None_asked_both_witness :
  In (VizierQuery "HD 55852")
    (trace (@getTargetCentroidFromWcs emptyCatalogues tt "HD 55852" true))
  /\ In (SimbadQuery "HD 55852")
       (trace (@getTargetCentroidFromWcs emptyCatalogues tt "HD 55852" true)).
Proof.
  apply (@getTargetCentroidFromWcs_None_asked_both emptyCatalogues tt "HD 55852" true).
  reflexivity.
Defined.

End LocatorMore.

(** ** [run] without a target in the header *)

Module RunMore.

Import Effects EffectsFacts Run.
Local Open Scope string_scope.

(** X14: a header without OBJECT stops run with KeyError before anything
    is logged or extracted, even when a forced target name is configured:
    the header is read before the override is looked at. *)
Theorem run_header_without_object (md : gmap string string)
    (forceObjectName : string) (spectractor_run : string -> result unit) :
  md !! "OBJECT" = None ->
  run md forceObjectName spectractor_run = mkIO [] (Raise KeyError).
Proof.
  intros Hmd. unfold run, resolveTarget, metadata_getitem.
  rewrite Hmd. reflexivity.
Qed.

Lemma run_header_without_object_witness :
  run (∅ : gmap string string) "HD 55852" (fun _ => Ok tt) = mkIO [] (Raise KeyError).
Proof.
  apply run_header_without_object. reflexivity.
Defined.

End RunMore.

(** ** [updateMetadata] *)

Module MetadataFacts.

Import Py PyFacts Metadata.
Local Open Scope string_scope.

Lemma list_getitem_second {A : Type} (x y : A) (l : list A) :
  list_getitem (x :: y :: l) 1 = Ok y.
Proof.
  unfold list_getitem.
  change (1 <? 0)%Z with false. cbv iota.
  replace ((0 <=? 1) && (1 <? Z.of_nat (List.length (x :: y :: l))))%Z with true.
  - reflexivity.
  - symmetry. apply andb_true_iff. split; [reflexivity |].
    apply Z.ltb_lt. cbn [List.length]. lia.
Qed.

Lemma list_getitem_short {A : Type} (l : list A) (i : Z) :
  (Z.of_nat (List.length l) <= i)%Z -> list_getitem l i = Raise IndexError.
Proof.
  intros Hi. unfold list_getitem.
  destruct (i <? 0)%Z eqn:Hneg; [apply Z.ltb_lt in Hneg; lia |].
  destruct ((0 <=? i) && (i <? Z.of_nat (List.length l)))%Z eqn:E; [| reflexivity].
  apply andb_true_iff in E as [_ E]. apply Z.ltb_lt in E. lia.
Qed.

(** The header after a call with a centroid of at least two items. *)
Lemma updateMetadata_pair (md : PropertyList) (vi : VisitInfo)
    (x y : PyVal) (rest : list PyVal) :
  updateMetadata md vi (Some (ObjSeq (x :: y :: rest)))
  = Ok {| values :=
            <["OBJECTY" := y]> (<["OBJECTX" := x]>
              (<["AIRMASS" := PyFloat (getBoresightAirmass vi)]>
                 (<["HA" := PyFloat (getBoresightHourAngleDegrees vi)]> (values md))));
          comments :=
            <["OBJECTY" := "y pixel coordinate of object centroid"]>
              (<["OBJECTX" := "x pixel coordinate of object centroid"]>
                 (<["AIRMASS" := "Airmass at observation start"]>
                    (<["HA" := "Hour angle of observation start"]> (comments md)))) |}.
Proof.
  unfold updateMetadata, obj_getitem.
  now rewrite list_getitem_first, list_getitem_second.
Qed.

(** The centroid written is the centroid saved. *)
Lemma updateMetadata_saves (md : PropertyList) (vi : VisitInfo)
    (x y : PyVal) (rest : list PyVal) :
  exists md',
    updateMetadata md vi (Some (ObjSeq (x :: y :: rest))) = Ok md'
    /\ savedCentroid md' = Ok (x, y).
Proof.
  eexists. split; [apply updateMetadata_pair |].
  unfold savedCentroid, md_getitem; cbn.
  by simplify_map_eq.
Qed.

(** X15: what updateMetadata writes can be read back: after a call with
    a centroid (x, y), the header holds the visit's hour angle and airmass,
    and the pair (md['OBJECTX'], md['OBJECTY']) that runDataRef reads from a
    saved calexp is (x, y). *)
Theorem updateMetadata_read_back (md : PropertyList) (vi : VisitInfo)
    (x y : PyVal) (rest : list PyVal) :
  exists md',
    updateMetadata md vi (Some (ObjSeq (x :: y :: rest))) = Ok md'
    /\ savedCentroid md' = Ok (x, y)
    /\ md_getitem md' "HA" = Ok (PyFloat (getBoresightHourAngleDegrees vi))
    /\ md_getitem md' "AIRMASS" = Ok (PyFloat (getBoresightAirmass vi)).
Proof.
  eexists. split; [apply updateMetadata_pair |].
  unfold savedCentroid, md_getitem; cbn.
  repeat split; by simplify_map_eq.
Qed.

(** X16: updateMetadata touches only HA, AIRMASS, OBJECTX and OBJECTY:
    the value and the comment of every other name are as before. *)
Theorem updateMetadata_other_names (md md' : PropertyList) (vi : VisitInfo)
    (kwargs_centroid : option PyObj) (name : string) :
  updateMetadata md vi kwargs_centroid = Ok md' ->
  ~ In name writtenNames ->
  values md' !! name = values md !! name
  /\ comments md' !! name = comments md !! name.
Proof.
  intros Hupdate Hname. unfold updateMetadata in Hupdate.
  destruct (obj_getitem _ 0) as [x |]; [| discriminate].
  cbn in Hupdate.
  destruct (obj_getitem _ 1) as [y |]; [| discriminate].
  injection Hupdate as <-. cbn.
  unfold writtenNames in Hname. cbn in Hname.
  split; repeat (rewrite lookup_insert_ne by (intros <-; tauto)); reflexivity.
Qed.

Lemma updateMetadata_other_names_witness :
  exists md',
    updateMetadata {| values := {[ "OBJECT" := PyStr "HD 55852" ]}; comments := ∅ |}
      {| getBoresightHourAngleDegrees := 1; getBoresightAirmass := 2 |}
      (Some (ObjSeq [PyFloat 512%R; PyFloat 512%R])) = Ok md'
    /\ values md' !! "OBJECT"
       = values {| values := {[ "OBJECT" := PyStr "HD 55852" ]}; comments := ∅ |}
         !! "OBJECT"
    /\ comments md' !! "OBJECT"
       = comments {| values := {[ "OBJECT" := PyStr "HD 55852" ]}; comments := ∅ |}
         !! "OBJECT".
Proof.
  eexists. split; [apply updateMetadata_pair |].
  apply (updateMetadata_other_names
           {| values := {[ "OBJECT" := PyStr "HD 55852" ]}; comments := ∅ |} _
           {| getBoresightHourAngleDegrees := 1; getBoresightAirmass := 2 |}
           (Some (ObjSeq [PyFloat 512%R; PyFloat 512%R])) "OBJECT").
  - apply updateMetadata_pair.
  - unfold writtenNames. cbn. intuition discriminate.
Defined.

(** X17: updateMetadata returns exactly when the centroid is left out or
    has two items or more: a centroid of None fails with TypeError, and a
    sequence of fewer than two items with IndexError. *)
Theorem updateMetadata_centroid_shape (md : PropertyList) (vi : VisitInfo) :
  updateMetadata md vi (Some ObjNone) = Raise TypeError
  /\ (forall items, (List.length items < 2)%nat ->
      updateMetadata md vi (Some (ObjSeq items)) = Raise IndexError)
  /\ (forall kwargs_centroid,
      (exists md', updateMetadata md vi kwargs_centroid = Ok md')
      <-> match kwargs_centroid with
          | None => True
          | Some ObjNone => False
          | Some (ObjSeq items) => (2 <= List.length items)%nat
          end).
Proof.
  assert (forall items, (List.length items < 2)%nat ->
            updateMetadata md vi (Some (ObjSeq items)) = Raise IndexError) as Hshort.
  { intros [| x [| y rest]] Hlen; cbn in Hlen; [| | lia].
    - unfold updateMetadata, obj_getitem. now rewrite list_getitem_nil.
    - unfold updateMetadata, obj_getitem.
      rewrite list_getitem_first, (list_getitem_short [x] 1) by (cbn; lia).
      reflexivity. }
  split; [reflexivity |]. split; [exact Hshort |].
  intros [[| items] |].
  - split; [intros [md' [=]] | contradiction].
  - split.
    + intros [md' Hok].
      destruct (le_lt_dec 2 (List.length items)) as [Hlen | Hlen]; [exact Hlen |].
      rewrite (Hshort items Hlen) in Hok. discriminate Hok.
    + destruct items as [| x [| y rest]]; cbn; try lia.
      intros _. eexists. apply updateMetadata_pair.
  - split; [trivial |]. intros _. eexists.
    apply (updateMetadata_pair md vi PyNone PyNone []).
Qed.

(** X18: runDataRef updates the header twice, first without a centroid
    and later with one; the first update leaves no trace: the two calls in
    a row end as the second call alone would. *)
Theorem updateMetadata_twice (md : PropertyList) (vi vi' : VisitInfo) (centroid : PyObj) :
  (md1 ← updateMetadata md vi None; updateMetadata md1 vi' (Some centroid))
  = updateMetadata md vi' (Some centroid).
Proof.
  change (updateMetadata md vi None)
    with (updateMetadata md vi (Some (ObjSeq [PyNone; PyNone]))).
  rewrite updateMetadata_pair.
  change (Ok ?a ≫= ?k) with (k a). cbv beta.
  destruct centroid as [| [| x [| y rest]]].
  - reflexivity.
  - unfold updateMetadata, obj_getitem. now rewrite list_getitem_nil.
  - unfold updateMetadata, obj_getitem.
    now rewrite list_getitem_first, (list_getitem_short [x] 1) by (cbn; lia).
  - rewrite !updateMetadata_pair. cbn [values comments].
    f_equal. f_equal; apply map_eq; intros k;
      rewrite !lookup_insert; repeat case_decide; congruence.
Qed.

End MetadataFacts.

(** ** The centroid step of [runDataRef] *)

Module DataRefFacts.

Import Py Effects EffectsFacts Locator Metadata MetadataFacts DataRef.
Local Open Scope string_scope.

(** X24: runAstrometry raises nothing and returns a fit only when the
    solver returned it with a scatter below one arcsecond; the exposure gets
    its own filter back when the solver returns, and keeps the reference
    filter when the solver raises. *)
Theorem runAstrometry_returns_good_fits {Filter : Type}
    (originalFilter referenceFilter : Filter) (solver_run : result AstromResult) :
  let run := runAstrometry originalFilter referenceFilter solver_run in
  (forall astromResult,
     returned run = Some astromResult
     <-> solver_run = Ok astromResult /\ (scatterOnSkyArcseconds astromResult < 1)%R)
  /\ (forall astromResult, solver_run = Ok astromResult ->
      filterAfter run = originalFilter)
  /\ (raises solver_run -> filterAfter run = referenceFilter /\ returned run = None).
Proof.
  intros run. subst run. unfold runAstrometry.
  destruct solver_run as [fit | e].
  - destruct (Rlt_dec (scatterOnSkyArcseconds fit) 1) as [Hlt | Hge]; cbn.
    + split; [| split].
      * intros astromResult. split; [intros [= <-]; auto | intros [[= <-] _]; reflexivity].
      * reflexivity.
      * intros [e' [=]].
    + split; [| split].
      * intros astromResult. split; [discriminate | intros [[= <-] Hlt]; contradiction].
      * reflexivity.
      * intros [e' [=]].
  - cbn. split; [| split].
    + intros astromResult. split; [discriminate | intros [[=] _]].
    + intros astromResult [=].
    + auto.
Qed.

Section Step.
Context `{Services}.
Context {Filter : Type}.
Variables (originalFilter referenceFilter : Filter).
Variables (exposure : Exposure) (md : PropertyList) (vi : VisitInfo).
Variables (xy : Point2D -> R * R) (repr : Point2D -> string).

(** X19: when the astrometric fit is good but the locator finds the
    target in neither catalogue, its None reaches updateMetadata as the
    centroid: the step fails with TypeError and no calexp is written. *)
Theorem centroidStep_target_not_found (astromResult : AstromResult)
    (target : string) (findMain : result Point2D) :
  (scatterOnSkyArcseconds astromResult < 1)%R ->
  outcome (getTargetCentroidFromWcs exposure target true) = Ok None ->
  let step := centroidStep originalFilter referenceFilter exposure md vi
                (Ok astromResult) (Ok target) findMain xy repr in
  stepOutcome step = Raise TypeError /\ calexpWritten step = false.
Proof.
  intros Hscatter Hnone step. subst step.
  unfold centroidStep, runAstrometry.
  destruct (Rlt_dec (scatterOnSkyArcseconds astromResult) 1) as [_ | Hge];
    [| contradiction].
  cbn [warnings returned].
  destruct (Rlt_dec (scatterOnSkyArcseconds astromResult) 1) as [_ | Hge];
    [| contradiction].
  cbv zeta. unfold lift. rewrite !bind_Ok. cbv beta.
  rewrite (IO_eta (getTargetCentroidFromWcs exposure target true)), Hnone.
  cbn. split; reflexivity.
Qed.

(** X20: when the solver raises or its fit has a scatter of one arcsecond
    or more, no catalogue is asked: the centroid is the one that
    findMainSource returns, it is written to the header and the calexp is
    written. *)
Theorem centroidStep_detection_fallback (solver_run : result AstromResult)
    (headerObject : result string) (p : Point2D) :
  (forall astromResult, solver_run = Ok astromResult ->
     (1 <= scatterOnSkyArcseconds astromResult)%R) ->
  let step := centroidStep originalFilter referenceFilter exposure md vi
                solver_run headerObject (Ok p) xy repr in
  let centroid := ObjSeq [PyFloat (fst (xy p)); PyFloat (snd (xy p))] in
  (exists md', stepOutcome step = Ok (centroid, md')
               /\ savedCentroid md' = Ok (PyFloat (fst (xy p)), PyFloat (snd (xy p))))
  /\ calexpWritten step = true
  /\ Forall (fun ev => isCatalogueQuery ev = false) (stepTrace step).
Proof.
  intros Hbad step centroid. subst step centroid.
  pose proof (updateMetadata_saves md vi (PyFloat (fst (xy p)))
                (PyFloat (snd (xy p))) []) as (md' & Hupdate & Hsaved).
  unfold centroidStep, runAstrometry.
  destruct solver_run as [astromResult | e].
  - specialize (Hbad astromResult eq_refl).
    destruct (Rlt_dec (scatterOnSkyArcseconds astromResult) 1) as [Hlt | _]; [lra |].
    cbn [warnings returned outcome trace mbind IO_bind mret IO_ret emit lift centroidObj].
    rewrite Hupdate. cbn.
    split; [now exists md' |]. split; [reflexivity | repeat constructor].
  - cbn [warnings returned outcome trace mbind IO_bind mret IO_ret emit lift centroidObj].
    rewrite Hupdate. cbn.
    split; [now exists md' |]. split; [reflexivity | repeat constructor].
Qed.

(** The end of the step, once the centroid has been determined. *)
Lemma updateMetadata_centroidObj (found : option Point2D) (obj : PyObj)
    (md' : PropertyList) :
  centroidObj xy found = obj ->
  updateMetadata md vi (Some obj) = Ok md' ->
  exists x y, obj = ObjSeq [PyFloat x; PyFloat y]
              /\ savedCentroid md' = Ok (PyFloat x, PyFloat y).
Proof.
  intros <- Hupdate. destruct found as [p |]; [| discriminate Hupdate].
  exists (fst (xy p)), (snd (xy p)). split; [reflexivity |].
  destruct (updateMetadata_saves md vi (PyFloat (fst (xy p)))
              (PyFloat (snd (xy p))) []) as (md'' & Hupdate' & Hsaved).
  cbn [centroidObj] in Hupdate. congruence.
Qed.

(** X21: whenever the step hands on a centroid, the calexp has been
    written and its header holds that centroid: a later run that finds the
    calexp on disk reads back from OBJECTX and OBJECTY the two coordinates
    that this run used. *)
Theorem centroidStep_saved_centroid (solver_run : result AstromResult)
    (headerObject : result string) (findMain : result Point2D)
    (centroid : PyObj) (md' : PropertyList) :
  let step := centroidStep originalFilter referenceFilter exposure md vi
                solver_run headerObject findMain xy repr in
  stepOutcome step = Ok (centroid, md') ->
  calexpWritten step = true
  /\ exists x y, centroid = ObjSeq [PyFloat x; PyFloat y]
                 /\ savedCentroid md' = Ok (PyFloat x, PyFloat y).
Proof.
  intros step. subst step. unfold centroidStep.
  set (astrometry := runAstrometry originalFilter referenceFilter solver_run).
  cbv zeta. unfold lift. rewrite bind_Ok. cbv beta.
  assert (forall located : IO (option Point2D),
            let objs := located ≫= (fun found => mret (centroidObj xy found)) in
            forall obj, outcome objs = Ok obj -> exists found, centroidObj xy found = obj)
    as Hshape.
  { intros [t [found | e]] objs obj; subst objs; cbn; [| discriminate].
    intros [= <-]. now exists found. }
  match goal with
  | |- context [outcome ?m] =>
      assert (forall obj, outcome m = Ok obj -> exists found, centroidObj xy found = obj)
        as Hobj
  end.
  { intros obj.
    assert (forall p, outcome (mkIO [] (Ok p) ≫= (fun sourceCentroid : Point2D =>
              emit (LogWarn "Astrometric fit failed, failing over to source-finding centroid")
              ≫= fun _ => emit (LogInfo ("Centroid of main star at: " ++ repr sourceCentroid))
              ≫= fun _ => mret (centroidObj xy (Some sourceCentroid)))) = Ok obj ->
            exists found, centroidObj xy found = obj) as Hdet.
    { intros p. cbn. intros [= <-]. now exists (Some p). }
    destruct (returned astrometry) as [astromResult |].
    - destruct (Rlt_dec (scatterOnSkyArcseconds astromResult) 1).
      + destruct headerObject as [target | e]; [| discriminate].
        rewrite bind_Ok. cbv beta. apply Hshape.
      + destruct findMain as [p | e]; [apply Hdet | discriminate].
    - destruct findMain as [p | e]; [apply Hdet | discriminate]. }
  match goal with
  | |- context [outcome ?m] => destruct (outcome m) as [obj | e] eqn:Hloc
  end; [| discriminate].
  destruct (Hobj obj eq_refl) as [found Hfound].
  destruct (updateMetadata md vi (Some obj)) as [md1 |] eqn:Hupdate; [| discriminate].
  cbn. intros [= <- <-]. split; [reflexivity |].
  exact (updateMetadata_centroidObj found obj md1 Hfound Hupdate).
Qed.

End Step.

Import Catalogues.

Lemma centroidStep_target_not_found_witness :
  let step := @centroidStep emptyCatalogues string "empty~holo4_003" "phot_g_mean"
                tt {| values := ∅; comments := ∅ |}
                {| getBoresightHourAngleDegrees := 1; getBoresightAirmass := 2 |}
                (Ok {| scatterOnSkyArcseconds := 0 |}) (Ok "HD 55852")
                (Ok (512%Z, 512%Z)) pixelCoordinates (fun _ => "Point2D") in
  stepOutcome step = Raise TypeError /\ calexpWritten step = false.
Proof.
  apply (@centroidStep_target_not_found emptyCatalogues string).
  - cbn. lra.
  - reflexivity.
Defined.

Lemma centroidStep_detection_fallback_witness :
  let step := @centroidStep emptyCatalogues string "empty~holo4_003" "phot_g_mean"
                tt {| values := ∅; comments := ∅ |}
                {| getBoresightHourAngleDegrees := 1; getBoresightAirmass := 2 |}
                (Raise (OtherError "RuntimeError")) (Ok "HD 55852")
                (Ok (512%Z, 512%Z)) pixelCoordinates (fun _ => "Point2D") in
  let centroid :=
    ObjSeq [PyFloat (fst (pixelCoordinates (512%Z, 512%Z)));
            PyFloat (snd (pixelCoordinates (512%Z, 512%Z)))] in
  (exists md', stepOutcome step = Ok (centroid, md')
               /\ savedCentroid md'
                  = Ok (PyFloat (fst (pixelCoordinates (512%Z, 512%Z))),
                        PyFloat (snd (pixelCoordinates (512%Z, 512%Z)))))
  /\ calexpWritten step = true
  /\ Forall (fun ev => isCatalogueQuery ev = false) (stepTrace step).
Proof.
  apply (@centroidStep_detection_fallback emptyCatalogues string).
  intros astromResult [=].
Defined.

Lemma centroidStep_saved_centroid_witness :
  exists md',
    calexpWritten (@centroidStep (stubCatalogues (Ok tt) (Ok tt) (Ok None)) string
                     "empty~holo4_003" "phot_g_mean"
                     tt {| values := ∅; comments := ∅ |}
                     {| getBoresightHourAngleDegrees := 1; getBoresightAirmass := 2 |}
                     (Ok {| scatterOnSkyArcseconds := 0 |}) (Ok "HD 55852")
                     (Raise IndexError) pixelCoordinates (fun _ => "Point2D")) = true
    /\ exists x y,
         ObjSeq [PyFloat (IZR 100); PyFloat (IZR 200)] = ObjSeq [PyFloat x; PyFloat y]
         /\ savedCentroid md' = Ok (PyFloat x, PyFloat y).
Proof.
  eexists.
  apply (@centroidStep_saved_centroid (stubCatalogues (Ok tt) (Ok tt) (Ok None)) string
           "empty~holo4_003" "phot_g_mean" tt {| values := ∅; comments := ∅ |}
           {| getBoresightHourAngleDegrees := 1; getBoresightAirmass := 2 |}
           pixelCoordinates (fun _ => "Point2D")
           (Ok {| scatterOnSkyArcseconds := 0 |}) (Ok "HD 55852") (Raise IndexError)).
  unfold centroidStep, runAstrometry. cbn [scatterOnSkyArcseconds].
  destruct (Rlt_dec 0 1) as [_ | Hge]; [| exfalso; lra].
  cbn [warnings returned scatterOnSkyArcseconds].
  destruct (Rlt_dec 0 1) as [_ | Hge]; [| exfalso; lra].
  reflexivity.
Defined.

End DataRefFacts.

(** ** [makeGainFlat]: what is left alone, and when it returns *)

Module GainFlatMore.

Import BBox GainFlat GainFlatFacts.
Local Open Scope Z_scope.

Lemma makeGainFlat_Ok_inv (detectorExposure flat : Exposure) (gainDict : gmap string R) :
  makeGainFlat detectorExposure gainDict = Ok flat ->
  dom gainDict = list_to_set (List.map getName (getDetector detectorExposure))
  /\ exists flat1,
       gainLoop (getDetector detectorExposure) gainDict detectorExposure = Ok flat1
       /\ getExposureBBox flat = getExposureBBox flat1
       /\ image flat = image flat1
       /\ getDetector flat = getDetector flat1.
Proof.
  unfold makeGainFlat.
  case_bool_decide as Hdom; [| discriminate].
  destruct (gainLoop _ _ _) as [flat1 |]; [| discriminate].
  cbn. intros [= <-]. split; [exact Hdom |]. now exists flat1.
Qed.

(** X22: makeGainFlat keeps the bounding box and the detector of the
    exposure, and a pixel that lies in no amplifier box keeps the image
    value it had. *)
Theorem makeGainFlat_outside_boxes (detectorExposure flat : Exposure)
    (gainDict : gmap string R) :
  makeGainFlat detectorExposure gainDict = Ok flat ->
  getExposureBBox flat = getExposureBBox detectorExposure
  /\ getDetector flat = getDetector detectorExposure
  /\ (forall p,
        Forall (fun amp => boxContainsPixel (getBBox amp) p = false)
          (getDetector detectorExposure) ->
        image flat p = image detectorExposure p).
Proof.
  intros Hflat.
  apply makeGainFlat_Ok_inv in Hflat as (_ & flat1 & Hloop & -> & -> & ->).
  destruct (gainLoop_planes _ _ _ _ Hloop) as (-> & _ & _ & ->).
  repeat split.
  intros p Hout. exact (gainLoop_untouched _ _ _ _ p Hloop Hout).
Qed.

Lemma makeGainFlat_outside_boxes_witness :
  exists flat,
    makeGainFlat (twoPixelExposure [ampLeft]) {[ "A" := 1%R ]} = Ok flat
    /\ getExposureBBox flat = getExposureBBox (twoPixelExposure [ampLeft])
    /\ getDetector flat = getDetector (twoPixelExposure [ampLeft])
    /\ (forall p,
          Forall (fun amp => boxContainsPixel (getBBox amp) p = false)
            (getDetector (twoPixelExposure [ampLeft])) ->
          image flat p = image (twoPixelExposure [ampLeft]) p).
Proof.
  destruct (makeGainFlat_accepts (twoPixelExposure [ampLeft]) {[ "A" := 1%R ]})
    as (flat & Hflat & _).
  - rewrite dom_singleton_L. cbn. set_solver.
  - repeat constructor.
  - exists flat. split; [exact Hflat |].
    exact (makeGainFlat_outside_boxes _ _ _ Hflat).
Defined.

(** X23: makeGainFlat returns a flat exactly when the keys of the gain
    dictionary are the amplifier names and every amplifier box fits in the
    exposure; with the right keys and a box that does not fit it fails with
    LengthError. *)
Theorem makeGainFlat_returns_iff (detectorExposure : Exposure) (gainDict : gmap string R) :
  let detector := getDetector detectorExposure in
  let fits amp :=
    boxContainsBox (getExposureBBox detectorExposure) (getBBox amp) = true in
  ((exists flat, makeGainFlat detectorExposure gainDict = Ok flat)
   <-> dom gainDict = list_to_set (List.map getName detector) /\ Forall fits detector)
  /\ (dom gainDict = list_to_set (List.map getName detector) ->
      ~ Forall fits detector ->
      makeGainFlat detectorExposure gainDict = Raise LengthError).
Proof.
  intros detector fits.
  assert (dom gainDict = list_to_set (List.map getName detector) ->
          ~ Forall fits detector ->
          makeGainFlat detectorExposure gainDict = Raise LengthError) as Hunfit.
  { intros Hdom Hnot. apply makeGainFlat_LengthError; [exact Hdom |].
    apply List.neg_Forall_Exists_neg; [| exact Hnot].
    intros amp. unfold fits. destruct (boxContainsBox _ _); [now left | now right]. }
  split; [| exact Hunfit].
  split.
  - intros [flat Hflat].
    pose proof (makeGainFlat_Ok_inv _ _ _ Hflat) as [Hdom _].
    split; [exact Hdom |].
    destruct (List.Forall_dec fits) with (l := detector) as [Hall | Hnot]; [| exact Hall |].
    + intros amp. unfold fits. destruct (boxContainsBox _ _); [now left | now right].
    + rewrite (Hunfit Hdom Hnot) in Hflat. discriminate Hflat.
  - intros [Hdom Hfits].
    destruct (makeGainFlat_accepts detectorExposure gainDict Hdom Hfits) as (flat & Hflat & _).
    now exists flat.
Qed.

Lemma makeGainFlat_returns_iff_witness :
  makeGainFlat
    {| getExposureBBox := {| getMinX := 0; getMinY := 0; getMaxX := 0; getMaxY := 0 |};
       image := fun _ => 7%R; mask := fun _ => 5; variance := fun _ => 3%R;
       getDetector := [ampLeft; ampRight] |}
    twoGains
  = Raise LengthError.
Proof.
  refine (proj2 (makeGainFlat_returns_iff _ twoGains) _ _).
  - rewrite twoGains_dom. cbn. set_solver.
  - intros Hall. inversion Hall as [| ? ? _ Hright]; subst.
    inversion Hright as [| ? ? Hfit _]; subst.
    vm_compute in Hfit. discriminate Hfit.
Defined.

End GainFlatMore.
